(** * Skill executor and automation chain orchestrator: a shallow embedding

    The development follows [backend/app/services/executor.py] and
    [backend/app/services/automation_engine.py] (with the run store and
    the step defaults of [automation.py] and the cluster lookup of
    [clusters.py]).

    Conventions of the embedding:
    - a Python [str] is a [string], read as its UTF-8 encoding; every
      delimiter the code looks for is ASCII, so scanning bytes and scanning
      code points agree; a slice [s[:n]] counts characters and white space
      is that of [str.isspace];
    - a Python [dict] is an association list in insertion order with unique
      keys ([PyDict]); JSON-shaped data is a [Value];
    - collaborators (vault, transports, skill catalog, LLM analysis, clock,
      uuid) are fields of a [Collaborators] record acting on an abstract
      environment;
    - [async]/[await] is sequential here: a coroutine is a state
      transformer. *)

From Stdlib Require Import String Ascii List ZArith Lia Bool DecimalString.
Import ListNotations.
Open Scope string_scope.

Set Implicit Arguments.
Set Warnings "-register-all".

(** ** Python values *)

Inductive Value : Type :=
| VNone
| VBool (b : bool)
| VInt (z : Z)
| VFloat (lexeme : string)
| VStr (s : string)
| VList (l : list Value)
| VDict (d : list (string * Value)).

(** Insertion-ordered dictionaries. *)
Definition dict (V : Type) : Type := list (string * V).

Module PyDict.

Fixpoint get {V} (k : string) (d : dict V) : option V :=
  match d with
  | [] => None
  | (k', v) :: r => if String.eqb k k' then Some v else get k r
  end.

Definition mem {V} (k : string) (d : dict V) : bool :=
  match get k d with Some _ => true | None => false end.

(** [d[k] = v]: an existing key keeps its position, a new key goes last. *)
Fixpoint set {V} (k : string) (v : V) (d : dict V) : dict V :=
  match d with
  | [] => [(k, v)]
  | (k', v') :: r =>
      if String.eqb k k' then (k, v) :: r else (k', v') :: set k v r
  end.

(** [d.update(e)], also [{**d, **e}] on a copy of [d]. *)
Definition update {V} (d e : dict V) : dict V :=
  fold_left (fun acc kv => set (fst kv) (snd kv) acc) e d.

(** [dict(pairs)]. *)
Definition of_pairs {V} (pairs : list (string * V)) : dict V :=
  update [] pairs.

Definition get_default {V} (k : string) (dflt : V) (d : dict V) : V :=
  match get k d with Some v => v | None => dflt end.

End PyDict.

(** What the interpreter does with floats, with [repr] of a string and with
    [int(v)] is not part of the repository; it is taken as a parameter. *)
Class PyBuiltins : Type := {
  float_repr : string -> string;     (* str(float(lexeme)) *)
  float_truthy : string -> bool;     (* bool(float(lexeme)) *)
  str_repr : string -> string;       (* repr(s) *)
  int_of : Value -> option Z         (* int(v); None when it raises *)
}.

Definition Z_to_string (z : Z) : string := NilZero.string_of_int (Z.to_int z).

Section Builtins.
Context {B : PyBuiltins}.

(** [bool(v)] *)
Definition truthy (v : Value) : bool :=
  match v with
  | VNone => false
  | VBool b => b
  | VInt z => negb (Z.eqb z 0)
  | VFloat l => float_truthy l
  | VStr s => negb (String.eqb s "")
  | VList l => match l with [] => false | _ => true end
  | VDict d => match d with [] => false | _ => true end
  end.

(** [repr(v)] *)
Fixpoint py_repr (v : Value) : string :=
  match v with
  | VNone => "None"
  | VBool true => "True"
  | VBool false => "False"
  | VInt z => Z_to_string z
  | VFloat l => float_repr l
  | VStr s => str_repr s
  | VList l =>
      "[" ++ (fix items (l : list Value) : string :=
                match l with
                | [] => ""
                | [x] => py_repr x
                | x :: r => py_repr x ++ ", " ++ items r
                end) l ++ "]"
  | VDict d =>
      "{" ++ (fix items (d : list (string * Value)) : string :=
                match d with
                | [] => ""
                | [(k, x)] => str_repr k ++ ": " ++ py_repr x
                | (k, x) :: r => str_repr k ++ ": " ++ py_repr x ++ ", " ++ items r
                end) d ++ "}"
  end.

(** [str(v)] *)
Definition py_str (v : Value) : string :=
  match v with
  | VStr s => s
  | _ => py_repr v
  end.

End Builtins.

(** ** Strings *)
Module Str.

Definition newline : ascii := "010"%char.

Fixpoint join (sep : string) (l : list string) : string :=
  match l with
  | [] => ""
  | [x] => x
  | x :: r => x ++ sep ++ join sep r
  end.

(** [s.split(sep)] for a one-character separator. *)
Fixpoint split_on (sep : ascii) (s : string) : list string :=
  match s with
  | EmptyString => [""]
  | String c r =>
      if Ascii.eqb c sep then "" :: split_on sep r
      else match split_on sep r with
           | h :: t => String c h :: t
           | [] => [String c ""]
           end
  end.

Fixpoint drop (n : nat) (s : string) : string :=
  match n, s with
  | S k, String _ r => drop k r
  | _, _ => s
  end.

(** A text is the bytes of its UTF-8 encoding.  [find] counts bytes, and
    [drop] and [take_bytes] slice at the index it returns, which gives the
    parts the interpreter gets from the index and the slices in
    characters. *)
Fixpoint take_bytes (n : nat) (s : string) : string :=
  match n, s with
  | S k, String c r => String c (take_bytes k r)
  | _, _ => ""
  end.

(** A byte that continues a character. *)
Definition is_continuation (c : ascii) : bool :=
  let n := nat_of_ascii c in Nat.leb 128 n && Nat.leb n 191.

(** [s[:n]]: the first [n] characters, each with the bytes that continue
    it. *)
Fixpoint take (n : nat) (s : string) : string :=
  match s with
  | EmptyString => ""
  | String c r =>
      if is_continuation c then String c (take n r)
      else match n with
           | O => ""
           | S k => String c (take k r)
           end
  end.

(** [s.startswith(p)] with the remainder. *)
Fixpoint strip_prefix (p s : string) : option string :=
  match p, s with
  | EmptyString, _ => Some s
  | String a p', String b s' => if Ascii.eqb a b then strip_prefix p' s' else None
  | _, _ => None
  end.

Definition starts_with (p s : string) : bool :=
  match strip_prefix p s with Some _ => true | None => false end.

(** [s.find(p)] *)
Fixpoint find_from (i : nat) (p s : string) : option nat :=
  if starts_with p s then Some i
  else match s with
       | EmptyString => None
       | String _ r => find_from (S i) p r
       end.

Definition find (p s : string) : option nat := find_from 0 p s.

(** [p in s] *)
Definition contains (p s : string) : bool :=
  match find p s with Some _ => true | None => false end.

(** [s[i]] *)
Fixpoint nth (i : nat) (s : string) : option ascii :=
  match s, i with
  | EmptyString, _ => None
  | String c _, O => Some c
  | String _ r, S k => nth k r
  end.

(** [s.replace(old, new)] for a non-empty [old]: occurrences are taken
    left to right and do not overlap.  [skip] counts the characters of
    the current occurrence still to be passed over. *)
Fixpoint replace_from (skip : nat) (old new s : string) : string :=
  match s with
  | EmptyString => ""
  | String c r =>
      match skip with
      | S k => replace_from k old new r
      | O => if starts_with old s
             then new ++ replace_from (String.length old - 1) old new r
             else String c (replace_from 0 old new r)
      end
  end.

Definition replace (old new s : string) : string := replace_from 0 old new s.

(** The white space of [str.strip()] and [str.split(None)] below U+0080:
    U+0009 to U+000D, U+001C to U+0020. *)
Definition is_space (c : ascii) : bool :=
  let n := nat_of_ascii c in
  Nat.eqb n 32 || (Nat.leb 9 n && Nat.leb n 13) || (Nat.leb 28 n && Nat.leb n 31).

(** The number of bytes of the white space character at the head of [s],
    0 when there is none.  Beyond [is_space] these are U+0085 and U+00A0
    (two bytes), U+1680, U+2000 to U+200A, U+2028, U+2029, U+202F, U+205F
    and U+3000 (three bytes). *)
Definition space_width (s : string) : nat :=
  match s with
  | EmptyString => 0
  | String c r =>
      if is_space c then 1
      else
        let n := nat_of_ascii c in
        match r with
        | String c2 r2 =>
            let n2 := nat_of_ascii c2 in
            if Nat.eqb n 194 && (Nat.eqb n2 133 || Nat.eqb n2 160) then 2
            else
              match r2 with
              | String c3 _ =>
                  let n3 := nat_of_ascii c3 in
                  if (Nat.eqb n 225 && Nat.eqb n2 154 && Nat.eqb n3 128)
                     || (Nat.eqb n 226 && Nat.eqb n2 128
                         && ((Nat.leb 128 n3 && Nat.leb n3 138)
                             || Nat.eqb n3 168 || Nat.eqb n3 169 || Nat.eqb n3 175))
                     || (Nat.eqb n 226 && Nat.eqb n2 129 && Nat.eqb n3 159)
                     || (Nat.eqb n 227 && Nat.eqb n2 128 && Nat.eqb n3 128)
                  then 3 else 0
              | EmptyString => 0
              end
        | EmptyString => 0
        end
  end.

(** [s.lstrip()]; [skip] counts the bytes of the current white space
    character still to be passed over. *)
Fixpoint lstrip_from (skip : nat) (s : string) : string :=
  match s with
  | EmptyString => ""
  | String _ r =>
      match skip with
      | S k => lstrip_from k r
      | O =>
          match space_width s with
          | O => s
          | S k => lstrip_from k r
          end
      end
  end.

Definition lstrip (s : string) : string := lstrip_from 0 s.

(** [s.isspace() or s == ""] *)
Definition all_space (s : string) : bool :=
  match lstrip s with EmptyString => true | _ => false end.

(** [s.rstrip()] *)
Fixpoint rstrip (s : string) : string :=
  match s with
  | EmptyString => ""
  | String c r => if all_space s then "" else String c (rstrip r)
  end.

Definition strip (s : string) : string := rstrip (lstrip s).

(** The leading run of characters that are not white space, and what
    follows it. *)
Fixpoint span_word (s : string) : string * string :=
  match s with
  | EmptyString => ("", "")
  | String c r =>
      match space_width s with
      | S _ => ("", s)
      | O => let (w, rest) := span_word r in (String c w, rest)
      end
  end.

(** [s.split(None, 1)] *)
Definition split_ws1 (s : string) : list string :=
  match lstrip s with
  | EmptyString => []
  | s1 => let (w, rest) := span_word s1 in
          match lstrip rest with
          | EmptyString => [w]
          | rest' => [w; rest']
          end
  end.

End Str.

(** ** [json.loads]

    The grammar of the interpreter's decoder in its default (strict) mode:
    white space is blank, tab, line feed and carriage return; a number with
    a fraction or an exponent is a float, kept as its lexeme; [NaN],
    [Infinity] and [-Infinity] are accepted; a repeated key keeps its first
    position and its last value.  [None] stands for [JSONDecodeError].
    The fuel bounds the number of nested calls; every call consumes a
    character, so the length of the text is enough. *)
Module Json.

Definition is_ws (c : ascii) : bool :=
  let n := nat_of_ascii c in
  Nat.eqb n 32 || Nat.eqb n 9 || Nat.eqb n 10 || Nat.eqb n 13.

Fixpoint skip_ws (s : string) : string :=
  match s with
  | String c r => if is_ws c then skip_ws r else s
  | EmptyString => ""
  end.

Definition is_digit (c : ascii) : bool :=
  let n := nat_of_ascii c in Nat.leb 48 n && Nat.leb n 57.

Definition hex_val (c : ascii) : option N :=
  let n := N_of_ascii c in
  if (48 <=? n)%N && (n <=? 57)%N then Some (n - 48)%N
  else if (97 <=? n)%N && (n <=? 102)%N then Some (n - 87)%N
  else if (65 <=? n)%N && (n <=? 70)%N then Some (n - 55)%N
  else None.

(** Four hexadecimal digits and the rest. *)
Definition hex4 (s : string) : option (N * string) :=
  match s with
  | String a (String b (String c (String d r))) =>
      match hex_val a, hex_val b, hex_val c, hex_val d with
      | Some x, Some y, Some z, Some w =>
          Some (((x * 16 + y) * 16 + z) * 16 + w, r)%N
      | _, _, _, _ => None
      end
  | _ => None
  end.

(** UTF-8 bytes of a code point (a lone surrogate is encoded like any
    other three-byte code point). *)
Definition utf8 (cp : N) : string :=
  let b (n : N) := ascii_of_N n in
  (if cp <? 128 then String (b cp) ""
   else if cp <? 2048 then
     String (b (192 + cp / 64)) (String (b (128 + cp mod 64)) "")
   else if cp <? 65536 then
     String (b (224 + cp / 4096))
       (String (b (128 + (cp / 64) mod 64)) (String (b (128 + cp mod 64)) ""))
   else
     String (b (240 + cp / 262144))
       (String (b (128 + (cp / 4096) mod 64))
          (String (b (128 + (cp / 64) mod 64))
             (String (b (128 + cp mod 64)) ""))))%N.

(** The code point of a [\uXXXX] escape whose digits start at [s]; a high
    surrogate followed by an escaped low surrogate makes one code point. *)
Definition unicode_escape (s : string) : option (N * string) :=
  match hex4 s with
  | None => None
  | Some (hi, r) =>
      if (55296 <=? hi)%N && (hi <=? 56319)%N then
        match r with
        | String "\" (String "u" r') =>
            match hex4 r' with
            | Some (lo, r'') =>
                if (56320 <=? lo)%N && (lo <=? 57343)%N
                then Some (65536 + (hi - 55296) * 1024 + (lo - 56320), r'')%N
                else Some (hi, r)
            | None => Some (hi, r)
            end
        | _ => Some (hi, r)
        end
      else Some (hi, r)
  end.

(** The body of a string literal, after the opening quote. *)
Fixpoint scanstring (fuel : nat) (s : string) : option (string * string) :=
  match fuel with
  | O => None
  | S f =>
      match s with
      | EmptyString => None
      | String "034" r => Some ("", r)
      | String "\" EmptyString => None
      | String "\" (String e r) =>
          let simple (c : ascii) :=
            match scanstring f r with
            | Some (t, rest) => Some (String c t, rest)
            | None => None
            end in
          match e with
          | "034"%char => simple "034"%char
          | "\"%char => simple "\"%char
          | "/"%char => simple "/"%char
          | "b"%char => simple "008"%char
          | "f"%char => simple "012"%char
          | "n"%char => simple "010"%char
          | "r"%char => simple "013"%char
          | "t"%char => simple "009"%char
          | "u"%char =>
              match unicode_escape r with
              | Some (cp, r') =>
                  match scanstring f r' with
                  | Some (t, rest) => Some (utf8 cp ++ t, rest)
                  | None => None
                  end
              | None => None
              end
          | _ => None
          end
      | String c r =>
          if Nat.ltb (nat_of_ascii c) 32 then None
          else match scanstring f r with
               | Some (t, rest) => Some (String c t, rest)
               | None => None
               end
      end
  end.

Fixpoint take_digits (s : string) : string * string :=
  match s with
  | String c r =>
      if is_digit c then let (d, rest) := take_digits r in (String c d, rest)
      else ("", s)
  | EmptyString => ("", "")
  end.

Definition digits_value (d : string) : Z :=
  fold_left (fun acc c => (acc * 10 + (Z.of_nat (nat_of_ascii c) - 48))%Z)
    (list_ascii_of_string d) 0%Z.

(** A JSON number: an optional minus, [0] or a non-zero digit followed by
    digits, then an optional fraction and an optional exponent, each kept
    only when it has a digit. *)
Definition match_number (s : string) : option (Value * string) :=
  let (sign, s1) :=
    match s with String "-" r => ("-", r) | _ => ("", s) end in
  let int_part :=
    match s1 with
    | String "0" r => Some ("0", r)
    | String c _ => if is_digit c then Some (take_digits s1) else None
    | EmptyString => None
    end in
  match int_part with
  | None => None
  | Some (ip, r1) =>
      let (frac, r2) :=
        match r1 with
        | String "." r =>
            match take_digits r with
            | (EmptyString, _) => ("", r1)
            | (fd, rest) => ("." ++ fd, rest)
            end
        | _ => ("", r1)
        end in
      let (expo, r3) :=
        match r2 with
        | String e r =>
            if Ascii.eqb e "e" || Ascii.eqb e "E" then
              let (sg, r') :=
                match r with
                | String "+" q => ("+", q)
                | String "-" q => ("-", q)
                | _ => ("", r)
                end in
              match take_digits r' with
              | (EmptyString, _) => ("", r2)
              | (ed, rest) => (String e (sg ++ ed), rest)
              end
            else ("", r2)
        | EmptyString => ("", r2)
        end in
      match frac, expo with
      | EmptyString, EmptyString =>
          let z := digits_value ip in
          Some (VInt (if String.eqb sign "-" then (- z)%Z else z), r3)
      | _, _ => Some (VFloat (sign ++ ip ++ frac ++ expo), r3)
      end
  end.

Definition match_constant (s : string) : option (Value * string) :=
  let try (lit : string) (v : Value) (k : option (Value * string)) :=
    match Str.strip_prefix lit s with
    | Some r => Some (v, r)
    | None => k
    end in
  try "null" VNone
    (try "true" (VBool true)
       (try "false" (VBool false)
          (try "NaN" (VFloat "NaN")
             (try "Infinity" (VFloat "Infinity")
                (try "-Infinity" (VFloat "-Infinity") None))))).

(** [scan_once]: one value at the head of [s] (no leading white space).
    [members] starts after the opening quote of a key, [elements] at the
    head of an array element. *)
Fixpoint scan_once (fuel : nat) (s : string) : option (Value * string) :=
  match fuel with
  | O => None
  | S f =>
      match s with
      | String "034" r =>
          match scanstring (String.length r) r with
          | Some (t, rest) => Some (VStr t, rest)
          | None => None
          end
      | String "{" r =>
          match skip_ws r with
          | String "}" r' => Some (VDict [], r')
          | String "034" r' =>
              match members f r' with
              | Some (pairs, rest) => Some (VDict (PyDict.of_pairs pairs), rest)
              | None => None
              end
          | _ => None
          end
      | String "[" r =>
          match skip_ws r with
          | String "]" r' => Some (VList [], r')
          | r' =>
              match elements f r' with
              | Some (l, rest) => Some (VList l, rest)
              | None => None
              end
          end
      | _ =>
          match match_number s with
          | Some res => Some res
          | None => match_constant s
          end
      end
  end

with members (fuel : nat) (s : string) : option (list (string * Value) * string) :=
  match fuel with
  | O => None
  | S f =>
      match scanstring (String.length s) s with
      | None => None
      | Some (key, r) =>
          match skip_ws r with
          | String ":" r1 =>
              match scan_once f (skip_ws r1) with
              | None => None
              | Some (v, r2) =>
                  match skip_ws r2 with
                  | String "}" r3 => Some ([(key, v)], r3)
                  | String "," r3 =>
                      match skip_ws r3 with
                      | String "034" r4 =>
                          match members f r4 with
                          | Some (pairs, rest) => Some ((key, v) :: pairs, rest)
                          | None => None
                          end
                      | _ => None
                      end
                  | _ => None
                  end
              end
          | _ => None
          end
      end
  end

with elements (fuel : nat) (s : string) : option (list Value * string) :=
  match fuel with
  | O => None
  | S f =>
      match scan_once f s with
      | None => None
      | Some (v, r) =>
          match skip_ws r with
          | String "]" r1 => Some ([v], r1)
          | String "," r1 =>
              match elements f (skip_ws r1) with
              | Some (l, rest) => Some (v :: l, rest)
              | None => None
              end
          | _ => None
          end
      end
  end.

(** [json.loads(s)]: one value, white space around it, nothing else. *)
Definition loads (s : string) : option Value :=
  let s0 := skip_ws s in
  match scan_once (S (String.length s0)) s0 with
  | Some (v, rest) =>
      match skip_ws rest with
      | EmptyString => Some v
      | _ => None
      end
  | None => None
  end.

End Json.

(** ** The regular expressions of the two modules

    Each pattern is matched by a hand-written scanner.  The substitution
    and search loops recurse on the text; after a match at a position they
    pass over the remaining characters of the match ([skip]), which is how
    [re.sub] and [re.finditer] resume after a non-empty match. *)
Module Re.

(** The group of [(.+?)\}\}] once its first character is consumed: the
    shortest continuation, without a line feed, that two closing braces
    follow. *)
Fixpoint lazy_group (s : string) : option string :=
  match s with
  | EmptyString => None
  | String c r =>
      if Str.starts_with "}}" s then Some ""
      else if Ascii.eqb c Str.newline then None
      else match lazy_group r with
           | Some g => Some (String c g)
           | None => None
           end
  end.

(** [\{\{(.+?)\}\}] anchored at the head of [s]: group 1. *)
Definition placeholder_at (s : string) : option string :=
  match s with
  | String "{" (String "{" (String c r)) =>
      if Ascii.eqb c Str.newline then None
      else match lazy_group r with
           | Some g => Some (String c g)
           | None => None
           end
  | _ => None
  end.

(** [re.sub(r"\{\{(.+?)\}\}", repl, s)]; [repl] receives group 0 and
    group 1. *)
Fixpoint sub_placeholders_from (skip : nat) (repl : string -> string -> string)
         (s : string) : string :=
  match s with
  | EmptyString => ""
  | String c r =>
      match skip with
      | S k => sub_placeholders_from k repl r
      | O =>
          match placeholder_at s with
          | Some g =>
              repl ("{{" ++ g ++ "}}") g
                ++ sub_placeholders_from (String.length g + 3) repl r
          | None => String c (sub_placeholders_from 0 repl r)
          end
      end
  end.

Definition sub_placeholders := sub_placeholders_from 0.

Definition is_brace (c : ascii) : bool := Ascii.eqb c "{" || Ascii.eqb c "}".

(** The longest prefix without a brace, and the rest. *)
Fixpoint span_nonbrace (s : string) : string * string :=
  match s with
  | EmptyString => ("", "")
  | String c r =>
      if is_brace c then ("", s)
      else let (b, rest) := span_nonbrace r in (String c b, rest)
  end.

(** [\{[^{}]+\}] anchored at the head of [s]: the matched text. *)
Definition flat_object_at (s : string) : option string :=
  match s with
  | String "{" r =>
      match span_nonbrace r with
      | (String b0 b, String "}" _) => Some ("{" ++ String b0 b ++ "}")
      | _ => None
      end
  | _ => None
  end.

(** [[m.group() for m in re.finditer(r'\{[^{}]+\}', s)]] *)
Fixpoint flat_objects_from (skip : nat) (s : string) : list string :=
  match s with
  | EmptyString => []
  | String _ r =>
      match skip with
      | S k => flat_objects_from k r
      | O =>
          match flat_object_at s with
          | Some m => m :: flat_objects_from (String.length m - 1) r
          | None => flat_objects_from 0 r
          end
      end
  end.

Definition flat_objects := flat_objects_from 0.

(** The longest prefix without a closing brace, and the rest. *)
Fixpoint span_nonclose (s : string) : string * string :=
  match s with
  | EmptyString => ("", "")
  | String c r =>
      if Ascii.eqb c "}" then ("", s)
      else let (b, rest) := span_nonclose r in (String c b, rest)
  end.

(** [\{\{[^}]+\}\}] anchored at the head of [s]: the length of the match. *)
Definition leftover_at (s : string) : option nat :=
  match s with
  | String "{" (String "{" r) =>
      match span_nonclose r with
      | (String b0 b, String "}" (String "}" _)) => Some (String.length b + 5)
      | _ => None
      end
  | _ => None
  end.

(** [re.sub(r"\{\{[^}]+\}\}", "", s)] *)
Fixpoint strip_leftovers_from (skip : nat) (s : string) : string :=
  match s with
  | EmptyString => ""
  | String c r =>
      match skip with
      | S k => strip_leftovers_from k r
      | O =>
          match leftover_at s with
          | Some n => strip_leftovers_from (n - 1) r
          | None => String c (strip_leftovers_from 0 r)
          end
      end
  end.

Definition strip_leftovers := strip_leftovers_from 0.

(** [re.sub(r"  +", " ", s)]: a run of two or more blanks becomes one. *)
Fixpoint collapse_blanks (s : string) : string :=
  match s with
  | String " " ((String " " _) as r) => collapse_blanks r
  | String c r => String c (collapse_blanks r)
  | EmptyString => ""
  end.

End Re.

(** ** Models ([models/__init__.py]) *)

Inductive ExecutionStatus : Type :=
| PENDING | AWAITING_APPROVAL | RUNNING | ANALYZING
| COMPLETE | FAILED | CANCELLED | ROLLED_BACK.

Definition status_value (s : ExecutionStatus) : string :=
  match s with
  | PENDING => "pending"
  | AWAITING_APPROVAL => "awaiting_approval"
  | RUNNING => "running"
  | ANALYZING => "analyzing"
  | COMPLETE => "complete"
  | FAILED => "failed"
  | CANCELLED => "cancelled"
  | ROLLED_BACK => "rolled_back"
  end.

Definition status_eqb (a b : ExecutionStatus) : bool :=
  String.eqb (status_value a) (status_value b).

Record StepResult : Type := mkStepResult {
  sr_step_name : string;
  sr_status : ExecutionStatus;
  sr_command : string;
  sr_output : string;
  sr_error : option string;
  sr_duration_ms : Z
}.

Record ExecutionRequest : Type := mkExecutionRequest {
  rq_skill_name : string;
  rq_device_hostname : string;
  rq_parameters : dict Value
}.

Record ExecutionResult : Type := mkExecutionResult {
  er_execution_id : string;
  er_skill_name : string;
  er_device_hostname : string;
  er_status : ExecutionStatus;
  er_parameters : dict Value;
  er_steps : list StepResult;
  er_analysis : option string;
  er_started_at : option string;
  er_completed_at : option string;
  er_error : option string
}.

(** A step of a skill definition, as [parse_skill_full] returns it; an
    absent key is [None] and takes the default of the [.get] that reads it. *)
Record StepDef : Type := mkStepDef {
  sd_name : option string;
  sd_label : option string;
  sd_transport : option string;
  sd_command_template : option string;
  sd_timeout : option Z;
  sd_target : option string;
  sd_continue_on_fail : bool
}.

Record Skill : Type := mkSkill {
  sk_steps : list StepDef;
  sk_analysis : dict Value
}.

(** What a transport returns: the keys the executor reads. *)
Record ExecResult : Type := mkExecResult {
  x_output : string;
  x_error : option string;
  x_success : bool
}.

(** One call of a function of [transport.py], or the loop-back HTTP call of
    [_execute_proxmox_step], with its arguments. *)
Inductive TransportCall : Type :=
| CallSsh (host port username password : Value) (command : string)
          (timeout : Z) (private_key : Value)
| CallIcontrolRest (host username password : Value) (endpoint method : string)
                   (payload : Value) (timeout : Z)
| CallIcontrolBash (host username password : Value) (command : string)
                   (timeout : Z)
| CallProxmoxApi (host : Value) (port : Z) (token_id token_secret : Value)
                 (endpoint method : string) (payload : Value) (timeout : Z)
| CallLocalApi (method endpoint : string) (payload : Value) (timeout : Z).

Definition exn : Type := string.

(** ** Collaborators

    Each collaborator acts on an environment of its own; [inr] is a raised
    exception.  [clock_ms] stands for [time.time()], read in milliseconds. *)
Class Collaborators : Type := {
  Env : Type;
  uuid4 : Env -> string * Env;
  utc_now : Env -> string * Env;
  clock_ms : Env -> Z * Env;
  get_skill : string -> Env -> (option Skill + exn) * Env;
  get_device_credentials : string -> Env -> option (dict Value) * Env;
  transport : TransportCall -> Env -> (ExecResult + exn) * Env;
  run_analysis : string -> dict Value -> dict Value -> Env -> (option string + exn) * Env;
  get_cluster_params : Value -> Env -> option (dict Value) * Env
}.

(** [l.append(x)] *)
Definition append {A} (l : list A) (x : A) : list A := (l ++ [x])%list.

(** Characters that cannot be written inside a string literal. *)
Definition DQ : string := String "034"%char "".
Definition LF : string := String "010"%char "".
Definition CR : string := String "013"%char "".
Definition TAB : string := String "009"%char "".

(** ** The skill executor ([services/executor.py]) *)
Module Executor.
Section WithCollaborators.
Context {B : PyBuiltins} {C : Collaborators}.

(** The executor's world: the environment of the collaborators and the
    execution history ([HISTORY_DIR], one file per execution id). *)
Record XWorld : Type := mkXWorld {
  env : Env;
  history : dict ExecutionResult
}.

(** State and exceptions. *)
Definition X (A : Type) : Type := XWorld -> (A + exn) * XWorld.

Definition ret {A} (a : A) : X A := fun w => (inl a, w).

Definition bind {A A'} (m : X A) (k : A -> X A') : X A' :=
  fun w => match m w with
           | (inl a, w') => k a w'
           | (inr e, w') => (inr e, w')
           end.

(** [try: m except Exception as e: ...], the outcome handed to the caller. *)
Definition try {A} (m : X A) : X (A + exn) :=
  fun w => let (r, w') := m w in (inl r, w').

Definition ask {A} (f : Env -> A * Env) : X A :=
  fun w => let (a, e) := f (env w) in (inl a, mkXWorld e (history w)).

Definition call {A} (f : Env -> (A + exn) * Env) : X A :=
  fun w => let (r, e) := f (env w) in (r, mkXWorld e (history w)).

Notation "x <- c1 ;; c2" := (bind c1 (fun x => c2))
  (at level 61, c1 at next level, right associativity).

(** [a or b] *)
Definition py_or (a b : Value) : Value := if truthy a then a else b.

(** [d.get(k)] *)
Definition get_or_none (k : string) (d : dict Value) : Value :=
  PyDict.get_default k VNone d.

Definition opt_default {A} (o : option A) (d : A) : A :=
  match o with Some a => a | None => d end.

(** The value of a JSON string literal, escaped by hand as the code does. *)
Definition json_escape (v : string) : string :=
  Str.replace TAB "\t"
    (Str.replace CR "\r"
       (Str.replace LF "\n"
          (Str.replace DQ ("\" ++ DQ)
             (Str.replace "\" "\\" v)))).

(** [_resolve_template(template, params, transport)] *)
Definition _resolve_template (template : string) (params : dict Value)
           (transport : string) : string :=
  let result :=
    fold_left
      (fun result kv =>
         let val_str := py_str (snd kv) in
         let placeholder := "{{" ++ fst kv ++ "}}" in
         let val_str :=
           if String.eqb transport "icontrol_rest" && Str.contains placeholder result
           then match Str.find placeholder result with
                | Some (S i) =>
                    match Str.nth i result with
                    | Some "034"%char => json_escape val_str
                    | _ => val_str
                    end
                | _ => val_str
                end
           else val_str in
         Str.replace placeholder val_str result)
      params template in
  Str.strip (Re.collapse_blanks (Re.strip_leftovers result)).

(** What [execute_skill] reads from the credentials of the device. *)
Record Device : Type := mkDevice {
  dv_host : Value;
  dv_port : Value;
  dv_ssh_username : Value;
  dv_ssh_password : Value;
  dv_ssh_private_key : Value;
  dv_rest_username : Value;
  dv_rest_password : Value
}.

Definition device_of (request : ExecutionRequest) (creds : dict Value) : Device :=
  let ssh_username := PyDict.get_default "username" (VStr "") creds in
  let ssh_password := PyDict.get_default "password" (VStr "") creds in
  {| dv_host := PyDict.get_default "mgmt_ip" (VStr (rq_device_hostname request)) creds;
     dv_port := PyDict.get_default "port" (VInt 22) creds;
     dv_ssh_username := ssh_username;
     dv_ssh_password := ssh_password;
     dv_ssh_private_key := py_or (get_or_none "ssh_private_key" creds) VNone;
     dv_rest_username :=
       py_or (PyDict.get_default "rest_username" (VStr "") creds) ssh_username;
     dv_rest_password :=
       py_or (PyDict.get_default "rest_password" (VStr "") creds) ssh_password |}.

Definition is_icontrol (transport : string) : bool :=
  String.eqb transport "icontrol_rest" || String.eqb transport "icontrol_bash".

(** The target override: [(step_host, username, password)].  The two loops
    carry the same text (lines 201-226 and 396-414). *)
Definition resolve_target (dev : Device) (running_params : dict Value)
           (step_target transport : string) : Value * Value * Value :=
  if String.eqb step_target "replica"
     && (String.eqb transport "ssh" || is_icontrol transport)
  then
    let step_host :=
      py_or (get_or_none "target_host" running_params)
        (py_or (get_or_none "dhcp_ip" running_params)
           (py_or (get_or_none "mgmt_ip" running_params) (dv_host dev))) in
    if is_icontrol transport
    then (step_host,
          PyDict.get_default "rest_user" (dv_rest_username dev) running_params,
          PyDict.get_default "rest_pass" (dv_rest_password dev) running_params)
    else (step_host,
          PyDict.get_default "ssh_user" (dv_ssh_username dev) running_params,
          PyDict.get_default "ssh_pass" (dv_ssh_password dev) running_params)
  else if String.eqb step_target "proxmox" && String.eqb transport "ssh"
  then (PyDict.get_default "proxmox_host" (dv_host dev) running_params,
        PyDict.get_default "proxmox_ssh_user" (VStr "root") running_params,
        PyDict.get_default "proxmox_ssh_pass" (VStr "") running_params)
  else if is_icontrol transport
  then (dv_host dev, dv_rest_username dev, dv_rest_password dev)
  else (dv_host dev, dv_ssh_username dev, dv_ssh_password dev).

(** [METHOD /endpoint {json}]: method, endpoint and payload of a command. *)
Definition parse_rest_command (command : string) : string * string * Value :=
  let of_parts (parts : list string) :=
    (match parts with m :: _ => m | [] => "GET" end,
     match parts with _ :: e :: _ => e | _ => "/" end) in
  match Str.find "{" command with
  | Some (S n) =>
      let json_start := S n in
      let header := Str.strip (Str.take_bytes json_start command) in
      let json_str := Str.drop json_start command in
      (of_parts (Str.split_ws1 header),
       match Json.loads json_str with Some v => v | None => VNone end)
  | _ => (of_parts (Str.split_ws1 command), VNone)
  end.

(** [_execute_proxmox_step] *)
Definition _execute_proxmox_step (command : string) (creds : dict Value)
           (host : Value) (timeout : Z) (params : dict Value) : X ExecResult :=
  let pick (k : string) (last : Value) :=
    py_or (get_or_none k creds) (py_or (get_or_none k params) last) in
  let proxmox_host := pick "proxmox_host" host in
  match int_of (pick "proxmox_port" (VInt 8006)) with
  | None => fun w => (inr "invalid literal for int()", w)
  | Some proxmox_port =>
      let proxmox_token_id := pick "proxmox_token_id" (VStr "") in
      let proxmox_token_secret := pick "proxmox_token_secret" (VStr "") in
      let '(method, endpoint, payload) := parse_rest_command command in
      if Str.starts_with "/api/" endpoint then
        let http (body : Value) :=
          r <- try (call (transport (CallLocalApi method endpoint body timeout))) ;;
          match r with
          | inl res => ret res
          | inr e => ret (mkExecResult "" (Some ("Local API error: " ++ e)) false)
          end in
        if String.eqb method "GET" || String.eqb method "DELETE" then http VNone
        else if String.eqb method "POST" || String.eqb method "PUT"
                || String.eqb method "PATCH"
        then http (py_or payload (VDict []))
        else ret (mkExecResult "" (Some ("Unsupported method: " ++ method)) false)
      else
        call (transport (CallProxmoxApi proxmox_host proxmox_port proxmox_token_id
                           proxmox_token_secret endpoint method payload timeout))
  end.

(** What a loop knows of a step before it runs it. *)
Record StepPlan : Type := mkStepPlan {
  sp_name : string;
  sp_transport : string;
  sp_timeout : Z;
  sp_target : string;
  sp_host : Value;
  sp_username : Value;
  sp_password : Value;
  sp_command : string
}.

Definition plan_step (dev : Device) (running_params : dict Value)
           (step_def : StepDef) : StepPlan :=
  let step_name := opt_default (sd_name step_def) "unknown" in
  let transport := opt_default (sd_transport step_def) "ssh" in
  let command_template := opt_default (sd_command_template step_def) "" in
  let timeout := opt_default (sd_timeout step_def) 30%Z in
  let step_target := opt_default (sd_target step_def) "" in
  let '(step_host, username, password) :=
    resolve_target dev running_params step_target transport in
  {| sp_name := step_name; sp_transport := transport; sp_timeout := timeout;
     sp_target := step_target; sp_host := step_host;
     sp_username := username; sp_password := password;
     sp_command := _resolve_template command_template running_params transport |}.

(** The transport dispatch of a step (lines 242-281 and 429-464, the same
    text in both loops). *)
Definition dispatch (p : StepPlan) (creds : dict Value) (dev : Device)
           (running_params : dict Value) : X ExecResult :=
  if String.eqb (sp_transport p) "icontrol_rest" then
    let '(method, endpoint, payload) := parse_rest_command (sp_command p) in
    call (transport (CallIcontrolRest (sp_host p) (sp_username p) (sp_password p)
                       endpoint method payload (sp_timeout p)))
  else if String.eqb (sp_transport p) "icontrol_bash" then
    call (transport (CallIcontrolBash (sp_host p) (sp_username p) (sp_password p)
                       (sp_command p) (sp_timeout p)))
  else if String.eqb (sp_transport p) "proxmox_api" then
    _execute_proxmox_step (sp_command p) creds (dv_host dev) (sp_timeout p)
      running_params
  else
    call (transport
            (CallSsh (sp_host p) (dv_port dev) (sp_username p) (sp_password p)
               (sp_command p) (sp_timeout p)
               (if String.eqb (sp_target p) "replica"
                   || String.eqb (sp_target p) "proxmox"
                then VNone else dv_ssh_private_key dev))).

(** The transport call between the two readings of the clock. *)
Definition timed_dispatch (p : StepPlan) (creds : dict Value) (dev : Device)
           (running_params : dict Value) : X (ExecResult * Z) :=
  t0 <- ask clock_ms ;;
  exec_result <- dispatch p creds dev running_params ;;
  t1 <- ask clock_ms ;;
  ret (exec_result, (t1 - t0)%Z).

(** Intra-skill forwarding: the keys of a JSON object output are merged into
    the running parameters, and [vmid] is also known as [new_vmid]. *)
Definition forward_output (output : string) (running_params : dict Value)
  : dict Value :=
  match Json.loads output with
  | Some (VDict parsed) =>
      let merged := PyDict.update running_params parsed in
      match PyDict.get "vmid" parsed with
      | Some vmid =>
          if PyDict.mem "new_vmid" merged then merged
          else PyDict.set "new_vmid" vmid merged
      | None => merged
      end
  | _ => running_params
  end.

Definition _save_execution (result : ExecutionResult) : X unit :=
  fun w => (inl tt,
            mkXWorld (env w) (PyDict.set (er_execution_id result) result (history w))).

Definition analysis_enabled (analysis_config : dict Value) : bool :=
  truthy (get_or_none "enabled" analysis_config)
  && truthy (get_or_none "prompt_template" analysis_config).

Definition error_text (e : option string) : string :=
  match e with Some s => s | None => "None" end.

(** The state of the step loop of [execute_skill]: [sl_error] is
    [result.error], set when [result.status] becomes [FAILED]. *)
Record SkillLoop : Type := mkSkillLoop {
  sl_running_params : dict Value;
  sl_all_output : list string;
  sl_steps : list StepResult;
  sl_error : option string
}.

(** The step loop of [execute_skill] (lines 189-323). *)
Fixpoint run_steps (creds : dict Value) (dev : Device) (defs : list StepDef)
         (st : SkillLoop) : X SkillLoop :=
  match defs with
  | [] => ret st
  | step_def :: rest =>
      let p := plan_step dev (sl_running_params st) step_def in
      r <- try (timed_dispatch p creds dev (sl_running_params st)) ;;
      match r with
      | inl (exec_result, elapsed) =>
          let output := x_output exec_result in
          let step_result :=
            {| sr_step_name := sp_name p;
               sr_status := if x_success exec_result then COMPLETE else FAILED;
               sr_command := sp_command p;
               sr_output := output;
               sr_error := x_error exec_result;
               sr_duration_ms := elapsed |} in
          let all_output :=
            append (sl_all_output st) ("=== " ++ sp_name p ++ " ===" ++ LF ++ output) in
          if x_success exec_result then
            let running_params :=
              if String.eqb output "" then sl_running_params st
              else forward_output output (sl_running_params st) in
            run_steps creds dev rest
              (mkSkillLoop running_params all_output
                 (append (sl_steps st) step_result) None)
          else if sd_continue_on_fail step_def then
            let annotated :=
              {| sr_step_name := sr_step_name step_result;
                 sr_status := sr_status step_result;
                 sr_command := sr_command step_result;
                 sr_output := output ++ LF ++ "[Step failed but allowed to continue: "
                                ++ error_text (x_error exec_result) ++ "]";
                 sr_error := sr_error step_result;
                 sr_duration_ms := sr_duration_ms step_result |} in
            run_steps creds dev rest
              (mkSkillLoop (sl_running_params st) all_output
                 (append (sl_steps st) annotated) None)
          else
            ret (mkSkillLoop (sl_running_params st) all_output
                   (append (sl_steps st) step_result)
                   (Some ("Step '" ++ sp_name p ++ "' failed: "
                            ++ error_text (x_error exec_result))))
      | inr e =>
          ret (mkSkillLoop (sl_running_params st) (sl_all_output st)
                 (append (sl_steps st)
                    (mkStepResult (sp_name p) FAILED (sp_command p) "" (Some e) 0%Z))
                 (Some ("Step '" ++ sp_name p ++ "' exception: " ++ e)))
      end
  end.

(** [execute_skill(request)] *)
Definition execute_skill (request : ExecutionRequest) : X ExecutionResult :=
  uuid <- ask uuid4 ;;
  let execution_id := Str.take 8 uuid in
  started_at <- ask utc_now ;;
  let result (status : ExecutionStatus) (steps : list StepResult)
             (analysis completed_at error : option string) :=
    {| er_execution_id := execution_id;
       er_skill_name := rq_skill_name request;
       er_device_hostname := rq_device_hostname request;
       er_status := status;
       er_parameters := rq_parameters request;
       er_steps := steps;
       er_analysis := analysis;
       er_started_at := Some started_at;
       er_completed_at := completed_at;
       er_error := error |} in
  let fail (msg : string) :=
    let r := result FAILED [] None None (Some msg) in
    _ <- _save_execution r ;; ret r in
  skill <- call (get_skill (rq_skill_name request)) ;;
  match skill with
  | None => fail ("Skill '" ++ rq_skill_name request ++ "' not found")
  | Some skill =>
      creds <- ask (get_device_credentials (rq_device_hostname request)) ;;
      match creds with
      | None | Some [] =>
          fail ("No credentials found for device '"
                  ++ rq_device_hostname request ++ "'")
      | Some creds =>
          let dev := device_of request creds in
          st <- run_steps creds dev (sk_steps skill)
                  (mkSkillLoop (rq_parameters request) [] [] None) ;;
          analysis <-
            match sl_error st with
            | Some _ => ret None
            | None =>
                if analysis_enabled (sk_analysis skill)
                then call (run_analysis (Str.join (LF ++ LF) (sl_all_output st))
                             (rq_parameters request) (sk_analysis skill))
                else ret None
            end ;;
          completed_at <- ask utc_now ;;
          let r := result (match sl_error st with Some _ => FAILED | None => COMPLETE end)
                     (sl_steps st) analysis (Some completed_at) (sl_error st) in
          _ <- _save_execution r ;;
          ret r
      end
  end.

(** The events of the streaming variant, by their [type]. *)
Inductive Event : Type :=
| EvError (error : string)
| EvExecutionStart (execution_id skill_name device_hostname : string)
                   (total_steps : nat)
| EvStepStart (step_index : nat) (step_name step_label : string)
              (total_steps : nat)
| EvStepComplete (step_index : nat) (step_name status output : string)
                 (error : option string) (duration_ms : Z) (total_steps : nat)
| EvAnalyzing
| EvExecutionComplete (execution_id status : string) (result : ExecutionResult).

(** The state of the step loop of [execute_skill_streaming]; the events
    yielded so far are kept in order. *)
Record StreamLoop : Type := mkStreamLoop {
  st_running_params : dict Value;
  st_all_output : list string;
  st_all_step_results : list StepResult;
  st_failed : bool;
  st_events : list Event
}.

(** The step loop of [execute_skill_streaming] (lines 389-528); [i] is the
    index [enumerate] gives to the head of [defs]. *)
Fixpoint stream_steps (creds : dict Value) (dev : Device) (total_steps : nat)
         (i : nat) (defs : list StepDef) (st : StreamLoop) : X StreamLoop :=
  match defs with
  | [] => ret st
  | step_def :: rest =>
      let p := plan_step dev (st_running_params st) step_def in
      let started :=
        append (st_events st)
          (EvStepStart i (sp_name p) (opt_default (sd_label step_def) (sp_name p))
             total_steps) in
      t0 <- ask clock_ms ;;
      r <- try (dispatch p creds dev (st_running_params st)) ;;
      t1 <- ask clock_ms ;;
      let elapsed := (t1 - t0)%Z in
      match r with
      | inl exec_result =>
          let step_ok := x_success exec_result in
          let output := x_output exec_result in
          let error := x_error exec_result in
          let status := if step_ok then COMPLETE else FAILED in
          let all_output :=
            append (st_all_output st) ("=== " ++ sp_name p ++ " ===" ++ LF ++ output) in
          let all_step_results :=
            append (st_all_step_results st)
              (mkStepResult (sp_name p) status "" output error elapsed) in
          let events :=
            append started
              (EvStepComplete i (sp_name p) (status_value status)
                 (Str.take 2000 output) error elapsed total_steps) in
          if negb step_ok then
            if negb (sd_continue_on_fail step_def) then
              ret (mkStreamLoop (st_running_params st) all_output all_step_results
                     true events)
            else
              stream_steps creds dev total_steps (S i) rest
                (mkStreamLoop (st_running_params st) all_output all_step_results
                   (st_failed st) events)
          else
            let running_params :=
              if String.eqb output "" then st_running_params st
              else forward_output output (st_running_params st) in
            stream_steps creds dev total_steps (S i) rest
              (mkStreamLoop running_params all_output all_step_results
                 (st_failed st) events)
      | inr e =>
          ret (mkStreamLoop (st_running_params st) (st_all_output st)
                 (append (st_all_step_results st)
                    (mkStepResult (sp_name p) FAILED "" "" (Some e) elapsed))
                 true
                 (append started
                    (EvStepComplete i (sp_name p) "failed" "" (Some e) elapsed
                       total_steps)))
      end
  end.

(** [execute_skill_streaming(request)], run to its end: the events in the
    order they are yielded. *)
Definition execute_skill_streaming (request : ExecutionRequest) : X (list Event) :=
  uuid <- ask uuid4 ;;
  let execution_id := Str.take 8 uuid in
  started_at <- ask utc_now ;;
  skill <- call (get_skill (rq_skill_name request)) ;;
  match skill with
  | None =>
      ret [EvError ("Skill '" ++ rq_skill_name request ++ "' not found")]
  | Some skill =>
      creds <- ask (get_device_credentials (rq_device_hostname request)) ;;
      match creds with
      | None | Some [] =>
          ret [EvError ("No credentials for '" ++ rq_device_hostname request ++ "'")]
      | Some creds =>
          let dev := device_of request creds in
          let steps := sk_steps skill in
          let total_steps := List.length steps in
          st <- stream_steps creds dev total_steps 0 steps
                  (mkStreamLoop (rq_parameters request) [] [] false
                     [EvExecutionStart execution_id (rq_skill_name request)
                        (rq_device_hostname request) total_steps]) ;;
          let analyzing :=
            negb (st_failed st) && analysis_enabled (sk_analysis skill) in
          analysis <-
            (if analyzing
             then call (run_analysis (Str.join (LF ++ LF) (st_all_output st))
                          (rq_parameters request) (sk_analysis skill))
             else ret None) ;;
          completed_at <- ask utc_now ;;
          let result :=
            {| er_execution_id := execution_id;
               er_skill_name := rq_skill_name request;
               er_device_hostname := rq_device_hostname request;
               er_status := if st_failed st then FAILED else COMPLETE;
               er_parameters := rq_parameters request;
               er_steps := st_all_step_results st;
               er_analysis := analysis;
               er_started_at := Some started_at;
               er_completed_at := Some completed_at;
               er_error := None |} in
          _ <- _save_execution result ;;
          ret ((st_events st ++ (if analyzing then [EvAnalyzing] else []))%list
                 ++ [EvExecutionComplete execution_id
                       (if st_failed st then "failed" else "complete") result])%list
      end
  end.

End WithCollaborators.
End Executor.

(** ** The automation engine ([services/automation_engine.py]) *)
Module Engine.
Section WithCollaborators.
Context {B : PyBuiltins} {C : Collaborators}.

(** *** Chain definitions and runs *)

(** A step of a chain definition; an absent key is [None] (or the empty
    mapping) and takes the default of the [.get] that reads it. *)
Record ChainStep : Type := mkChainStep {
  cs_id : option string;
  cs_skill_name : string;
  cs_label : option string;
  cs_gate : option string;
  cs_on_failure : option string;
  cs_device_source : option string;
  cs_device_hostname : option Value;
  cs_device_from_step : option string;
  cs_device_param : option string;
  cs_parameters : dict Value;
  cs_parameter_map : dict Value
}.

Record Automation : Type := mkAutomation {
  au_name : string;
  au_steps : list ChainStep
}.

Record ChainStepResult : Type := mkChainStepResult {
  csr_step_id : string;
  csr_skill_name : string;
  csr_label : string;
  csr_status : string;
  csr_execution_id : option string;
  csr_output_preview : string;
  csr_analysis : option string;
  csr_duration_ms : Z;
  csr_device : Value;
  csr_error : option string
}.

(** [run["context"]]: the chain parameters and one entry per executed step. *)
Record Context : Type := mkContext {
  ctx_chain : dict Value;
  ctx_steps : dict (dict Value)
}.

Inductive RunStatus : Type :=
| Running | WaitingApproval | Failed | Cancelled | Complete.

Definition run_status_value (s : RunStatus) : string :=
  match s with
  | Running => "running"
  | WaitingApproval => "waiting_approval"
  | Failed => "failed"
  | Cancelled => "cancelled"
  | Complete => "complete"
  end.

Definition is_running (s : RunStatus) : bool :=
  match s with Running => true | _ => false end.

Definition is_terminal (s : RunStatus) : bool :=
  match s with Failed | Cancelled | Complete => true | _ => false end.

(** A run; [r_waiting_step] is [None] when the key is absent. *)
Record Run : Type := mkRun {
  r_id : string;
  r_automation_id : string;
  r_automation_name : string;
  r_status : RunStatus;
  r_chain_params : dict Value;
  r_current_step : nat;
  r_total_steps : nat;
  r_step_results : list ChainStepResult;
  r_started_at : string;
  r_completed_at : option string;
  r_waiting_step : option nat;
  r_context : Context
}.

(** Field updates, one per assignment of the source. *)
Definition set_status (s : RunStatus) (r : Run) : Run :=
  mkRun (r_id r) (r_automation_id r) (r_automation_name r) s (r_chain_params r)
    (r_current_step r) (r_total_steps r) (r_step_results r) (r_started_at r)
    (r_completed_at r) (r_waiting_step r) (r_context r).

Definition set_current_step (n : nat) (r : Run) : Run :=
  mkRun (r_id r) (r_automation_id r) (r_automation_name r) (r_status r)
    (r_chain_params r) n (r_total_steps r) (r_step_results r) (r_started_at r)
    (r_completed_at r) (r_waiting_step r) (r_context r).

Definition set_completed_at (t : string) (r : Run) : Run :=
  mkRun (r_id r) (r_automation_id r) (r_automation_name r) (r_status r)
    (r_chain_params r) (r_current_step r) (r_total_steps r) (r_step_results r)
    (r_started_at r) (Some t) (r_waiting_step r) (r_context r).

Definition set_waiting_step (o : option nat) (r : Run) : Run :=
  mkRun (r_id r) (r_automation_id r) (r_automation_name r) (r_status r)
    (r_chain_params r) (r_current_step r) (r_total_steps r) (r_step_results r)
    (r_started_at r) (r_completed_at r) o (r_context r).

Definition append_step_result (sr : ChainStepResult) (r : Run) : Run :=
  mkRun (r_id r) (r_automation_id r) (r_automation_name r) (r_status r)
    (r_chain_params r) (r_current_step r) (r_total_steps r)
    (append (r_step_results r) sr) (r_started_at r) (r_completed_at r)
    (r_waiting_step r) (r_context r).

Definition set_context_step (step_id : string) (entry : dict Value) (r : Run) : Run :=
  mkRun (r_id r) (r_automation_id r) (r_automation_name r) (r_status r)
    (r_chain_params r) (r_current_step r) (r_total_steps r) (r_step_results r)
    (r_started_at r) (r_completed_at r) (r_waiting_step r)
    (mkContext (ctx_chain (r_context r))
       (PyDict.set step_id entry (ctx_steps (r_context r)))).

(** The context as the mapping the templates are resolved against. *)
Definition context_value (ctx : Context) : Value :=
  VDict [("chain", VDict (ctx_chain ctx));
         ("steps", VDict (map (fun kv => (fst kv, VDict (snd kv))) (ctx_steps ctx)))].

(** *** Templates over the run context *)

(** The first candidate that is a JSON object with the key: its value. *)
Fixpoint first_with_key (part : string) (candidates : list string) : option Value :=
  match candidates with
  | [] => None
  | m :: rest =>
      match Json.loads m with
      | Some (VDict candidate) =>
          match PyDict.get part candidate with
          | Some v => Some v
          | None => first_with_key part rest
          end
      | _ => first_with_key part rest
      end
  end.

(** The walk of [replacer] along the parts of a path; [None] is the
    [return match.group(0)] of the source. *)
Fixpoint walk (obj : Value) (parts : list string) : option Value :=
  match parts with
  | [] => Some obj
  | part :: rest =>
      match obj with
      | VDict d => walk (PyDict.get_default part (VStr "") d) rest
      | VStr s =>
          match Json.loads s with
          | Some (VDict parsed) => walk (PyDict.get_default part (VStr "") parsed) rest
          | Some _ => None
          | None =>
              match first_with_key part (Re.flat_objects s) with
              | Some v => walk v rest
              | None => None
              end
          end
      | _ => None
      end
  end.

(** [replacer(match)], from group 0 and group 1 of the match. *)
Definition replacer (context : Value) (group0 path : string) : string :=
  match walk context (Str.split_on "." path) with
  | Some obj => if truthy obj then py_str obj else ""
  | None => group0
  end.

(** [_resolve_template(template, context)] *)
Definition _resolve_template (template : Value) (context : Value) : string :=
  Re.sub_placeholders (replacer context) (py_str template).

(** [_resolve_device(step, context)] *)
Definition _resolve_device (step : ChainStep) (context : Context) : Value :=
  let source := Executor.opt_default (cs_device_source step) "parameter" in
  if String.eqb source "fixed" then
    Executor.opt_default (cs_device_hostname step) (VStr "")
  else if String.eqb source "previous_step" then
    let ref := Executor.opt_default (cs_device_from_step step) "" in
    PyDict.get_default "device" (VStr "")
      (PyDict.get_default ref [] (ctx_steps context))
  else
    let param_name := Executor.opt_default (cs_device_param step) "device" in
    PyDict.get_default param_name (VStr "") (ctx_chain context).

(** [_build_step_params(step, context)] *)
Definition _build_step_params (step : ChainStep) (context : Context) : dict Value :=
  let overlay (params : dict Value) (kv : string * Value) :=
    PyDict.set (fst kv) (VStr (_resolve_template (snd kv) (context_value context)))
      params in
  fold_left overlay (cs_parameter_map step)
    (fold_left overlay (cs_parameters step) (ctx_chain context)).

(** [_make_step_result(step_id, step, status, **kwargs)] *)
Definition _make_step_result (step_id : string) (step : ChainStep) (status : string)
           (execution_id : option string) (output_preview : string)
           (analysis : option string) (duration_ms : Z) (device : Value)
           (error : option string) : ChainStepResult :=
  {| csr_step_id := step_id;
     csr_skill_name := cs_skill_name step;
     csr_label := Executor.opt_default (cs_label step) (cs_skill_name step);
     csr_status := status;
     csr_execution_id := execution_id;
     csr_output_preview := output_preview;
     csr_analysis := analysis;
     csr_duration_ms := duration_ms;
     csr_device := device;
     csr_error := error |}.

Definition opt_value (o : option string) : Value :=
  match o with Some s => VStr s | None => VNone end.

(** ["\n".join(s.output for s in result.steps if s.output)] *)
Definition combined_output_of (result : ExecutionResult) : string :=
  Str.join LF
    (filter (fun o => negb (String.eqb o "")) (map sr_output (er_steps result))).

(** [_execute_step]: the request is validated ([device_hostname] is a
    [str]), the skill is executed, and its result is summarised. *)
Definition _execute_step (step : ChainStep) (step_id : string) (device : Value)
           (params : dict Value)
  : Executor.X (ChainStepResult * dict Value * ExecutionStatus) :=
  match device with
  | VStr hostname =>
      Executor.bind
        (Executor.execute_skill (mkExecutionRequest (cs_skill_name step) hostname params))
        (fun result =>
           let combined_output := combined_output_of result in
           let step_result :=
             _make_step_result step_id step (status_value (er_status result))
               (Some (er_execution_id result)) (Str.take 500 combined_output)
               (er_analysis result)
               (fold_left Z.add (map sr_duration_ms (er_steps result)) 0%Z)
               device None in
           let output :=
             match Json.loads combined_output with
             | Some (VDict parsed) => VDict parsed
             | _ => VStr combined_output
             end in
           let context_entry :=
             [("output", output);
              ("status", VStr (status_value (er_status result)));
              ("execution_id", VStr (er_execution_id result));
              ("device", device);
              ("analysis", opt_value (er_analysis result))] in
           Executor.ret (step_result, context_entry, er_status result))
  | _ => fun w => (inr "validation error for ExecutionRequest: device_hostname", w)
  end.

(** *** The orchestrator's world *)

(** What an observer of a run sees, in order: a step passing its gate (the
    engine goes on to resolve its device and, if it can, executes it) and a
    call of [save_fn] with the snapshot it writes.  The trace is ghost
    state: the code does not read it. *)
Inductive Trace : Type :=
| TStep (i : nat)
| TSave (run : Run).

(** The executor's world, the chain definitions ([AUTOMATIONS_DIR]) and the
    run store ([RUNS_DIR], one file per run id). *)
Record World : Type := mkWorld {
  xw : Executor.XWorld;
  automations : dict Automation;
  runs : dict Run;
  trace : list Trace
}.

Definition M (A : Type) : Type := World -> A * World.

Definition ret {A} (a : A) : M A := fun w => (a, w).

Definition bind {A A'} (m : M A) (k : A -> M A') : M A' :=
  fun w => let (a, w') := m w in k a w'.

Notation "x <- c1 ;; c2" := (bind c1 (fun x => c2))
  (at level 61, c1 at next level, right associativity).

(** A coroutine of the executor, awaited inside [try]. *)
Definition in_executor {A} (m : Executor.X A) : M (A + exn) :=
  fun w => let (r, x) := m (xw w) in
           (r, mkWorld x (automations w) (runs w) (trace w)).

Definition ask_env {A} (f : Env -> A * Env) : M A :=
  fun w => let (a, e) := f (Executor.env (xw w)) in
           (a, mkWorld (Executor.mkXWorld e (Executor.history (xw w)))
                 (automations w) (runs w) (trace w)).

Definition observe (t : Trace) : M unit :=
  fun w => (tt, mkWorld (xw w) (automations w) (runs w) (append (trace w) t)).

(** [auto_mod._save_run(run)] *)
Definition _save_run (run : Run) : M unit :=
  fun w => (tt, mkWorld (xw w) (automations w) (PyDict.set (r_id run) run (runs w))
                  (append (trace w) (TSave run))).

(** [auto_mod.get_automation(automation_id)] *)
Definition get_automation (automation_id : string) : M (option Automation) :=
  fun w => (PyDict.get automation_id (automations w), w).

(** [auto_mod.get_run(run_id)] *)
Definition get_run (run_id : string) : M (option Run) :=
  fun w => (PyDict.get run_id (runs w), w).

(** *** The step loop *)

Definition opt_eqb (o : option string) (s : string) : bool :=
  match o with Some x => String.eqb x s | None => false end.

(** [status = "failed"], [completed_at = now], [save_fn(run)], [return]. *)
Definition fail_run (run : Run) : M Run :=
  t <- ask_env utc_now ;;
  let run := set_completed_at t (set_status Failed run) in
  _ <- _save_run run ;;
  ret run.

(** How an iteration of the [for] loop ends: it goes on to the next index
    ([continue], or the end of the body) or leaves the function ([return]). *)
Inductive Flow : Type :=
| Next (run : Run)
| Return (run : Run).

(** The body of the loop of [_run_steps] at index [i] (lines 162-217). *)
Definition iteration (on_gate : string) (start_idx i : nat) (step : ChainStep)
           (run : Run) : M Flow :=
  let step_id :=
    Executor.opt_default (cs_id step) ("step-" ++ Z_to_string (Z.of_nat (i + 1))) in
  let run := set_current_step (i + 1) run in
  if opt_eqb (cs_gate step) "approve" && String.eqb on_gate "pause"
     && (Nat.ltb start_idx i || negb (is_running (r_status run)))
  then
    let run := set_waiting_step (Some i) (set_status WaitingApproval run) in
    _ <- _save_run run ;;
    ret (Return run)
  else
    _ <- observe (TStep i) ;;
    let device := _resolve_device step (r_context run) in
    let params := _build_step_params step (r_context run) in
    if negb (truthy device) then
      let sr := _make_step_result step_id step "failed" None "" None 0%Z (VStr "")
                  (Some "Could not resolve device") in
      let run := append_step_result sr run in
      if opt_eqb (cs_on_failure step) "stop" then
        run <- fail_run run ;; ret (Return run)
      else ret (Next run)
    else
      r <- in_executor (_execute_step step step_id device params) ;;
      match r with
      | inl (step_result, ctx_entry, status) =>
          let run := set_context_step step_id ctx_entry
                       (append_step_result step_result run) in
          let failure_action := Executor.opt_default (cs_on_failure step) "stop" in
          if (status_eqb status FAILED || status_eqb status ROLLED_BACK)
             && String.eqb failure_action "stop"
          then run <- fail_run run ;; ret (Return run)
          else if (status_eqb status FAILED || status_eqb status ROLLED_BACK)
                  && String.eqb failure_action "skip"
          then ret (Next run)
          else
            _ <- _save_run run ;;
            ret (Next run)
      | inr e =>
          let sr := _make_step_result step_id step "failed" None "" None 0%Z (VStr "")
                      (Some e) in
          let run := append_step_result sr run in
          if opt_eqb (cs_on_failure step) "stop" then
            run <- fail_run run ;; ret (Return run)
          else
            _ <- _save_run run ;;
            ret (Next run)
      end.

(** The iterations of [_run_steps] from index [i] on, [steps] being
    [automation["steps"][i:]], and what follows the loop (lines 219-221). *)
Fixpoint run_loop (on_gate : string) (start_idx i : nat) (steps : list ChainStep)
         (run : Run) : M Run :=
  match steps with
  | [] =>
      t <- ask_env utc_now ;;
      let run := set_completed_at t (set_status Complete run) in
      _ <- _save_run run ;;
      ret run
  | step :: rest =>
      flow <- iteration on_gate start_idx i step run ;;
      match flow with
      | Return run => ret run
      | Next run => run_loop on_gate start_idx (S i) rest run
      end
  end.

(** [_run_steps(automation, run, start_idx, on_gate, save_fn)] with
    [save_fn = auto_mod._save_run]; the run it leaves is returned. *)
Definition _run_steps (automation : Automation) (run : Run) (start_idx : nat)
           (on_gate : string) : M Run :=
  run_loop on_gate start_idx start_idx (skipn start_idx (au_steps automation)) run.

(** What [execute_chain] and [resume_chain_run] return: the run, or the
    mapping [{"error": msg, "success": False}]. *)
Inductive Outcome : Type :=
| Returned (run : Run)
| Error (msg : string).

(** The initial chain context (lines 238-250 of [execute_chain]). *)
Definition chain_context_of (chain_params : dict Value) : M (dict Value) :=
  let chain_context := chain_params in
  let cluster_id := Executor.get_or_none "cluster_id" chain_params in
  if truthy cluster_id then
    cluster_params <- ask_env (get_cluster_params cluster_id) ;;
    match cluster_params with
    | Some ((_ :: _) as cluster_params) =>
        ret (PyDict.update cluster_params chain_context)
    | _ => ret chain_context
    end
  else ret chain_context.

(** [execute_chain(automation_id, chain_params, on_gate)] *)
Definition execute_chain (automation_id : string) (chain_params : dict Value)
           (on_gate : string) : M Outcome :=
  automation <- get_automation automation_id ;;
  match automation with
  | None => ret (Error "Automation not found")
  | Some automation =>
      uuid <- ask_env uuid4 ;;
      let run_id := Str.take 12 uuid in
      now <- ask_env utc_now ;;
      chain_context <- chain_context_of chain_params ;;
      let run :=
        {| r_id := run_id;
           r_automation_id := automation_id;
           r_automation_name := au_name automation;
           r_status := Running;
           r_chain_params := chain_params;
           r_current_step := 0;
           r_total_steps := List.length (au_steps automation);
           r_step_results := [];
           r_started_at := now;
           r_completed_at := None;
           r_waiting_step := None;
           r_context := mkContext chain_context [] |} in
      run <- _run_steps automation run 0 on_gate ;;
      ret (Returned run)
  end.

(** [resume_chain_run(run_id, action)] *)
Definition resume_chain_run (run_id : string) (action : string) : M Outcome :=
  run <- get_run run_id ;;
  match run with
  | None => ret (Error "Run not found")
  | Some run =>
      match r_status run with
      | WaitingApproval =>
          if String.eqb action "reject" then
            t <- ask_env utc_now ;;
            let run := set_completed_at t (set_status Cancelled run) in
            _ <- _save_run run ;;
            ret (Returned run)
          else
            automation <- get_automation (r_automation_id run) ;;
            match automation with
            | None => ret (Error "Automation definition not found")
            | Some automation =>
                let start_idx := Executor.opt_default (r_waiting_step run) 0 in
                let run := set_waiting_step None (set_status Running run) in
                run <- _run_steps automation run start_idx "pause" ;;
                ret (Returned run)
            end
      | s =>
          ret (Error ("Run not waiting approval (status: " ++ run_status_value s ++ ")"))
      end
  end.

End WithCollaborators.
End Engine.

(** ** The chain definitions ([services/automation.py]) *)
Module Automations.
Section WithBuiltins.
Context {B : PyBuiltins}.





End WithBuiltins.
End Automations.

(** ** A scripted environment

    Collaborators given by tables, over a call counter: every call moves
    the counter, identifiers and timestamps are derived from it.  It runs
    the model on concrete inputs. *)
Module Scripted.

Definition builtins : PyBuiltins :=
  {| float_repr := fun lexeme => lexeme;
     float_truthy := fun _ => true;
     str_repr := fun s => "'" ++ s ++ "'";
     int_of := fun v => match v with VInt z => Some z | _ => None end |}.

Definition tick (n : nat) : string := Z_to_string (Z.of_nat n).

Definition collaborators (catalog : dict Skill) (vault : dict (dict Value))
           (respond : TransportCall -> ExecResult + exn)
           (pool : Value -> option (dict Value)) : Collaborators :=
  {| Env := nat;
     uuid4 := fun n => (tick n ++ "-4f1c-9a2e-77d0c3b5e8a1", S n);
     utc_now := fun n => ("2024-01-01T00:00:" ++ tick n, S n);
     clock_ms := fun n => (Z.of_nat n, S n);
     get_skill := fun name n => (inl (PyDict.get name catalog), S n);
     get_device_credentials := fun hostname n => (PyDict.get hostname vault, S n);
     transport := fun c n => (respond c, S n);
     run_analysis := fun _ _ _ n => (inl None, S n);
     get_cluster_params := fun cluster_id n => (pool cluster_id, S n) |}.

(** The command a transport call carries. *)
Definition command_of (c : TransportCall) : string :=
  match c with
  | CallSsh _ _ _ _ command _ _ => command
  | CallIcontrolRest _ _ _ endpoint _ _ _ => endpoint
  | CallIcontrolBash _ _ _ command _ => command
  | CallProxmoxApi _ _ _ _ endpoint _ _ _ => endpoint
  | CallLocalApi _ endpoint _ _ => endpoint
  end.

(** A device answering each command from a table: [Some] output is a
    success; an unknown command fails. *)
Definition answer (table : dict string) (c : TransportCall) : ExecResult + exn :=
  match PyDict.get (command_of c) table with
  | Some output => inl (mkExecResult output None true)
  | None => inl (mkExecResult "" (Some "command not found") false)
  end.

Definition step (name command : string) (continue_on_fail : bool) : StepDef :=
  mkStepDef (Some name) None None (Some command) None None continue_on_fail.

Definition chain_step (skill_name gate on_failure : string) (parameters : dict Value)
  : Engine.ChainStep :=
  Engine.mkChainStep None skill_name None (Some gate) (Some on_failure)
    (Some "parameter") None None (Some "device") parameters [].

Definition start (C : Collaborators) (e : Env) : Executor.XWorld :=
  Executor.mkXWorld e [].

Definition world (C : Collaborators) (e : Env) (chains : dict Engine.Automation)
           (stored : dict Engine.Run) : Engine.World :=
  Engine.mkWorld (start C e) chains stored [].

End Scripted.

Unset Implicit Arguments.

(** * Properties of the orchestrator *)
Module ChainFacts.
Section Facts.
Context {B : PyBuiltins} {C : Collaborators}.
Import Engine.

(** ** Dictionaries *)

Lemma dict_get_set_same {V} (k : string) (v : V) (d : dict V) :
  PyDict.get k (PyDict.set k v d) = Some v.
Proof.
  induction d as [|[k' v'] d IH]; cbn.
  - now rewrite String.eqb_refl.
  - destruct (String.eqb k k') eqn:E; cbn; rewrite ?String.eqb_refl, ?E; auto.
Qed.

Lemma dict_get_set_other {V} (k k' : string) (v : V) (d : dict V) :
  k <> k' -> PyDict.get k (PyDict.set k' v d) = PyDict.get k d.
Proof.
  intros Hne. induction d as [|[k0 v0] d IH]; cbn.
  - destruct (String.eqb k k') eqn:E; auto.
    apply String.eqb_eq in E. contradiction.
  - destruct (String.eqb k' k0) eqn:E; cbn.
    + apply String.eqb_eq in E. subst k0.
      destruct (String.eqb k k') eqn:E'; auto.
      apply String.eqb_eq in E'. contradiction.
    + destruct (String.eqb k k0); auto.
Qed.

Lemma dict_get_fold_set {V} (k : string) (e : dict V) :
  NoDup (map fst e) ->
  forall acc : dict V,
    PyDict.get k (fold_left (fun acc kv => PyDict.set (fst kv) (snd kv) acc) e acc)
    = match PyDict.get k e with
      | Some v => Some v
      | None => PyDict.get k acc
      end.
Proof.
  induction e as [|[k0 v0] e IH]; intros Hnd acc; cbn; [reflexivity|].
  inversion Hnd as [|? ? Hnotin Hnd']; subst.
  rewrite (IH Hnd'). destruct (String.eqb k k0) eqn:E.
  - apply String.eqb_eq in E. subst k0.
    assert (Hnone : PyDict.get k e = None).
    { clear -Hnotin. induction e as [|[k1 v1] e IH]; cbn in *; auto.
      destruct (String.eqb k k1) eqn:E.
      - apply String.eqb_eq in E. subst. exfalso. apply Hnotin. now left.
      - apply IH. intros H. apply Hnotin. now right. }
    rewrite Hnone. apply dict_get_set_same.
  - assert (k <> k0) by (intros ->; rewrite String.eqb_refl in E; discriminate).
    destruct (PyDict.get k e); auto. now apply dict_get_set_other.
Qed.

(** [{**d, **e}]: the entries of [e] win, the others are those of [d]. *)
Lemma dict_get_update {V} (d e : dict V) (k : string) :
  NoDup (map fst e) ->
  PyDict.get k (PyDict.update d e)
  = match PyDict.get k e with
    | Some v => Some v
    | None => PyDict.get k d
    end.
Proof. intros Hnd. unfold PyDict.update. now apply dict_get_fold_set. Qed.

(** ** One iteration *)

(** For a run in state [running], the gate pauses exactly here. *)
Definition gate_pauses (on_gate : string) (start_idx i : nat) (step : ChainStep) : bool :=
  opt_eqb (cs_gate step) "approve" && String.eqb on_gate "pause" && Nat.ltb start_idx i.

(** What an attempted step leaves of the run: one more step result. *)
Definition after_attempt (i : nat) (run r' : Run) : Prop :=
  r_id r' = r_id run /\ r_waiting_step r' = r_waiting_step run
  /\ r_current_step r' = i + 1
  /\ exists sr, r_step_results r' = append (r_step_results run) sr.

Definition paused_at (i : nat) (run : Run) : Run :=
  set_waiting_step (Some i) (set_status WaitingApproval (set_current_step (i + 1) run)).

Lemma fail_run_eq (r0 : Run) (w : World) :
  bind (fail_run r0) (fun r => ret (Return r)) w
  = let (t, e) := utc_now (Executor.env (xw w)) in
    let r' := set_completed_at t (set_status Failed r0) in
    (Return r',
     mkWorld (Executor.mkXWorld e (Executor.history (xw w))) (automations w)
       (PyDict.set (r_id r') r' (runs w)) (append (trace w) (TSave r'))).
Proof.
  unfold bind, fail_run, ask_env, _save_run, ret, bind.
  destruct (utc_now (Executor.env (xw w))) as [t e]. reflexivity.
Qed.

Lemma iteration_cases (on_gate : string) (start_idx i : nat) (step : ChainStep)
      (run : Run) (w : World) :
  r_status run = Running ->
  match iteration on_gate start_idx i step run w with
  | (Return r', w') =>
      automations w' = automations w /\
      ((gate_pauses on_gate start_idx i step = true /\ r' = paused_at i run
        /\ xw w' = xw w
        /\ runs w' = PyDict.set (r_id r') r' (runs w)
        /\ trace w' = append (trace w) (TSave r'))
       \/
       (gate_pauses on_gate start_idx i step = false /\ r_status r' = Failed
        /\ (exists t, r_completed_at r' = Some t) /\ after_attempt i run r'
        /\ runs w' = PyDict.set (r_id r') r' (runs w)
        /\ trace w' = (trace w ++ [TStep i; TSave r'])%list))
  | (Next r', w') =>
      automations w' = automations w /\
      gate_pauses on_gate start_idx i step = false /\ r_status r' = Running
      /\ r_completed_at r' = r_completed_at run /\ after_attempt i run r'
      /\ ((runs w' = runs w /\ trace w' = append (trace w) (TStep i))
          \/ (runs w' = PyDict.set (r_id r') r' (runs w)
              /\ trace w' = (trace w ++ [TStep i; TSave r'])%list))
  end.
Proof.
  intros Hrun.
  unfold iteration, gate_pauses.
  cbn [r_status set_current_step]. rewrite Hrun. cbn [is_running negb].
  rewrite orb_false_r.
  destruct (opt_eqb (cs_gate step) "approve" && String.eqb on_gate "pause"
            && Nat.ltb start_idx i) eqn:G.
  - cbn. split; [reflexivity|]. left. repeat split; reflexivity.
  - unfold bind at 1. cbn [observe].
    pose (run1 := set_current_step (i + 1) run).
    assert (Att : forall sr, after_attempt i run (append_step_result sr run1)).
    { intros sr. repeat split; cbn; try reflexivity. eexists; reflexivity. }
    assert (Att' : forall sr id entry,
               after_attempt i run (set_context_step id entry (append_step_result sr run1))).
    { intros sr id entry. repeat split; cbn; try reflexivity. eexists; reflexivity. }
    assert (Stop : forall r0 w0,
               after_attempt i run r0 ->
               automations w0 = automations w -> runs w0 = runs w ->
               trace w0 = append (trace w) (TStep i) ->
               let (t, e) := utc_now (Executor.env (xw w0)) in
               let r' := set_completed_at t (set_status Failed r0) in
               automations w0 = automations w /\
               ((false = true /\ r' = paused_at i run
                 /\ Executor.mkXWorld e (Executor.history (xw w0)) = xw w
                 /\ PyDict.set (r_id r') r' (runs w0) = PyDict.set (r_id r') r' (runs w)
                 /\ append (trace w0) (TSave r') = append (trace w) (TSave r'))
                \/
                (false = false /\ r_status r' = Failed
                 /\ (exists t, r_completed_at r' = Some t) /\ after_attempt i run r'
                 /\ PyDict.set (r_id r') r' (runs w0) = PyDict.set (r_id r') r' (runs w)
                 /\ append (trace w0) (TSave r') = (trace w ++ [TStep i; TSave r'])%list))).
    { intros r0 w0 (Hid & Hw & Hc & sr & Hsr) Ha Hr Ht.
      destruct (utc_now (Executor.env (xw w0))) as [t e]. cbn.
      split; [assumption|]. right.
      repeat split; cbn; eauto; try congruence.
      rewrite Ht. unfold append. now rewrite <- app_assoc. }
    fold run1.
    destruct (negb (truthy (_resolve_device step (r_context run1)))).
    + destruct (opt_eqb (cs_on_failure step) "stop").
      * rewrite fail_run_eq.
        match goal with
        | |- context [append_step_result ?sr run1] =>
            specialize (Stop (append_step_result sr run1)
                          (mkWorld (xw w) (automations w) (runs w)
                             (append (trace w) (TStep i)))
                          (Att sr) eq_refl eq_refl eq_refl)
        end.
        cbn in Stop |- *.
        destruct (utc_now (Executor.env (xw w))) as [t e]. exact Stop.
      * cbn. split; [reflexivity|]. repeat split; try reflexivity; try exact Hrun.
        -- eexists; reflexivity.
        -- left. split; reflexivity.
    + unfold bind at 1. unfold in_executor. cbn [xw].
      destruct (_execute_step step _ _ _ (xw w)) as [[[[sr entry] st]|e] x].
      * match goal with
        | |- context [if ?c then _ else _] => destruct c
        end.
        -- rewrite fail_run_eq.
           match goal with
           | |- context [set_context_step ?id entry (append_step_result sr run1)] =>
               specialize (Stop (set_context_step id entry (append_step_result sr run1))
                             (mkWorld x (automations w) (runs w)
                                (append (trace w) (TStep i)))
                             (Att' sr id entry) eq_refl eq_refl eq_refl)
           end.
           cbn in Stop |- *.
           destruct (utc_now (Executor.env x)) as [t e]. exact Stop.
        -- match goal with
           | |- context [if ?c then _ else _] => destruct c
           end.
           ++ cbn. split; [reflexivity|]. repeat split; try reflexivity; try exact Hrun.
              ** eexists; reflexivity.
              ** left. split; reflexivity.
           ++ cbn. split; [reflexivity|]. repeat split; try reflexivity; try exact Hrun.
              ** eexists; reflexivity.
              ** right. split; [reflexivity|]. unfold append. now rewrite <- app_assoc.
      * destruct (opt_eqb (cs_on_failure step) "stop").
        -- rewrite fail_run_eq.
           match goal with
           | |- context [append_step_result ?sr run1] =>
               specialize (Stop (append_step_result sr run1)
                             (mkWorld x (automations w) (runs w)
                                (append (trace w) (TStep i)))
                             (Att sr) eq_refl eq_refl eq_refl)
           end.
           cbn in Stop |- *.
           destruct (utc_now (Executor.env x)) as [t e']. exact Stop.
        -- cbn. split; [reflexivity|]. repeat split; try reflexivity; try exact Hrun.
           ++ eexists; reflexivity.
           ++ right. split; [reflexivity|]. unfold append. now rewrite <- app_assoc.
Qed.

(** ** The loop *)

(** A snapshot of the run [id] that the loop started at [start_idx] may
    write: a terminal state carries its completion time, and a pause is at
    an index after [start_idx]. *)
Definition snapshot_ok (start_idx : nat) (id : string) (r : Run) : Prop :=
  r_id r = id
  /\ (is_terminal (r_status r) = true -> r_completed_at r <> None)
  /\ (r_status r = WaitingApproval ->
      exists j, r_waiting_step r = Some j /\ start_idx < j).

Definition event_ok (start_idx i : nat) (id : string) (ev : Trace) : Prop :=
  match ev with
  | TStep j => i <= j
  | TSave r => snapshot_ok start_idx id r
  end.

Lemma event_ok_weaken (start_idx i j : nat) (id : string) (ev : Trace) :
  i <= j -> event_ok start_idx j id ev -> event_ok start_idx i id ev.
Proof. destruct ev; cbn; auto. lia. Qed.

Lemma run_loop_spec (on_gate : string) (start_idx : nat) (steps : list ChainStep) :
  forall (i : nat) (run : Run) (w : World),
    r_status run = Running ->
    match run_loop on_gate start_idx i steps run w with
    | (r', w') =>
        automations w' = automations w
        /\ snapshot_ok start_idx (r_id run) r'
        /\ r_status r' <> Running
        /\ (forall k, k <> r_id run -> PyDict.get k (runs w') = PyDict.get k (runs w))
        /\ PyDict.get (r_id run) (runs w') = Some r'
        /\ exists tr, trace w' = (trace w ++ tr)%list
                      /\ Forall (event_ok start_idx i (r_id run)) tr
    end.
Proof.
  induction steps as [|step rest IH]; intros i run w Hrun.
  - cbn. unfold bind, ask_env, _save_run, ret.
    destruct (utc_now (Executor.env (xw w))) as [t e]. cbn.
    assert (Hs : snapshot_ok start_idx (r_id run)
                   (set_completed_at t (set_status Complete run))).
    { repeat split; cbn; try discriminate. }
    repeat split; try apply Hs; cbn; try discriminate.
    + intros k Hk. now apply dict_get_set_other.
    + apply dict_get_set_same.
    + eexists. split; [reflexivity|]. repeat constructor; apply Hs.
  - cbn [run_loop]. unfold bind at 1.
    pose proof (iteration_cases on_gate start_idx i step run w Hrun) as Hit.
    destruct (iteration on_gate start_idx i step run w) as [[r1|r1] w1].
    + destruct Hit as (Ha & Hg & Hst & Hc & (Hid & Hw & Hcur & sr & Hsr) & Hrt).
      specialize (IH (S i) r1 w1 Hst).
      destruct (run_loop on_gate start_idx (S i) rest r1 w1) as [r' w'].
      destruct IH as (Ha' & Hs' & Hnr & Hk & Hget & tr & Htr & Hev).
      rewrite Hid in *.
      assert (Hev' : Forall (event_ok start_idx i (r_id run)) tr).
      { eapply Forall_impl; [|exact Hev]. intros ev. apply event_ok_weaken. lia. }
      repeat split; try apply Hs'; try congruence.
      * intros k Hne. rewrite (Hk k Hne).
        destruct Hrt as [[Hr _]|[Hr _]]; rewrite Hr; auto.
        now apply dict_get_set_other.
      * destruct Hrt as [[_ Ht]|[_ Ht]]; rewrite Htr, Ht; unfold append;
          rewrite <- app_assoc; eexists; (split; [reflexivity|]).
        -- constructor; [cbn; lia | exact Hev'].
        -- constructor; [cbn; lia|]. constructor; [|exact Hev'].
           cbn. repeat split; auto; rewrite Hst; cbn; discriminate.
    + cbn. destruct Hit as (Ha & [(Hg & Hr1 & Hx & Hr & Ht)|(Hg & Hst & (t & Hc) & (Hid & Hw & Hcur & sr & Hsr) & Hr & Ht)]).
      * assert (Hs : snapshot_ok start_idx (r_id run) r1).
        { subst r1. repeat split; cbn; try discriminate.
          intros _. exists i. split; [reflexivity|].
          unfold gate_pauses in Hg. apply andb_prop in Hg. destruct Hg as [_ Hg].
          now apply Nat.ltb_lt. }
        repeat split; try apply Hs; auto.
        -- subst r1; cbn; discriminate.
        -- intros k Hne. rewrite Hr. apply dict_get_set_other. subst r1. exact Hne.
        -- rewrite Hr. subst r1. apply dict_get_set_same.
        -- rewrite Ht. eexists. split; [reflexivity|]. repeat constructor; apply Hs.
      * assert (Hs : snapshot_ok start_idx (r_id run) r1).
        { repeat split; auto; rewrite ?Hst, ?Hc; cbn; discriminate. }
        repeat split; try apply Hs; auto.
        -- rewrite Hst; discriminate.
        -- intros k Hne. rewrite Hr, Hid. now apply dict_get_set_other.
        -- rewrite Hr, Hid. rewrite <- Hid. apply dict_get_set_same.
        -- rewrite Ht. eexists. split; [reflexivity|].
           constructor; [cbn; lia|]. constructor; [exact Hs|constructor].
Qed.

(** The step results only grow, and a step that passes its gate is seen
    first and leaves a result. *)
Lemma run_loop_results (on_gate : string) (start_idx : nat) (steps : list ChainStep) :
  forall (i : nat) (run : Run) (w : World),
    r_status run = Running ->
    exists more,
      r_step_results (fst (run_loop on_gate start_idx i steps run w))
      = (r_step_results run ++ more)%list.
Proof.
  induction steps as [|step rest IH]; intros i run w Hrun.
  - cbn. unfold bind, ask_env, _save_run, ret.
    destruct (utc_now (Executor.env (xw w))) as [t e]. cbn.
    exists []. now rewrite app_nil_r.
  - cbn [run_loop]. unfold bind at 1.
    pose proof (iteration_cases on_gate start_idx i step run w Hrun) as Hit.
    destruct (iteration on_gate start_idx i step run w) as [[r1|r1] w1].
    + destruct Hit as (_ & _ & Hst & _ & (_ & _ & _ & sr & Hsr) & _).
      destruct (IH (S i) r1 w1 Hst) as (more & Hm).
      exists (sr :: more). rewrite Hm, Hsr. unfold append.
      now rewrite <- app_assoc.
    + cbn. destruct Hit as (_ & [(_ & Hr1 & _)|(_ & _ & _ & (_ & _ & _ & sr & Hsr) & _)]).
      * subst r1. exists []. cbn. now rewrite app_nil_r.
      * exists [sr]. exact Hsr.
Qed.

Lemma run_loop_first_step (on_gate : string) (start_idx i : nat) (step : ChainStep)
      (rest : list ChainStep) (run : Run) (w : World) :
  r_status run = Running ->
  gate_pauses on_gate start_idx i step = false ->
  match run_loop on_gate start_idx i (step :: rest) run w with
  | (r', w') =>
      (exists tr, trace w' = (trace w ++ TStep i :: tr)%list)
      /\ exists sr more, r_step_results r' = (r_step_results run ++ sr :: more)%list
  end.
Proof.
  intros Hrun Hg. cbn [run_loop]. unfold bind at 1.
  pose proof (iteration_cases on_gate start_idx i step run w Hrun) as Hit.
  destruct (iteration on_gate start_idx i step run w) as [[r1|r1] w1].
  - destruct Hit as (_ & _ & Hst & _ & (Hid & _ & _ & sr & Hsr) & Hrt).
    pose proof (run_loop_spec on_gate start_idx rest (S i) r1 w1 Hst) as Hspec.
    destruct (run_loop_results on_gate start_idx rest (S i) r1 w1 Hst) as (more & Hm).
    destruct (run_loop on_gate start_idx (S i) rest r1 w1) as [r' w'].
    destruct Hspec as (_ & _ & _ & _ & _ & tr & Htr & _). cbn in Hm.
    split.
    + destruct Hrt as [[_ Ht]|[_ Ht]]; rewrite Htr, Ht; unfold append;
        rewrite <- app_assoc; eexists; reflexivity.
    + exists sr, more. rewrite Hm, Hsr. unfold append. now rewrite <- app_assoc.
  - cbn. destruct Hit as (_ & [(Hg' & _)|(_ & _ & _ & (_ & _ & _ & sr & Hsr) & _ & Ht)]).
    + congruence.
    + split.
      * rewrite Ht. eexists; reflexivity.
      * exists sr, []. exact Hsr.
Qed.

(** Up to the only approval gate, every step leaves one result, unless a
    failure stops the run. *)
Lemma run_loop_to_gate (start_idx : nat) (g : ChainStep) (post : list ChainStep) :
  forall (pre : list ChainStep) (i : nat) (run : Run) (w : World),
    r_status run = Running ->
    Forall (fun s => opt_eqb (cs_gate s) "approve" = false) pre ->
    opt_eqb (cs_gate g) "approve" = true ->
    start_idx < i + List.length pre ->
    match run_loop "pause" start_idx i (pre ++ g :: post) run w with
    | (r', _) =>
        r_status r' = Failed
        \/ (r_status r' = WaitingApproval
            /\ r_waiting_step r' = Some (i + List.length pre)
            /\ List.length (r_step_results r')
               = List.length (r_step_results run) + List.length pre)
    end.
Proof.
  induction pre as [|s pre IH]; intros i run w Hrun Hpre Hg Hlt; cbn [app List.length] in *.
  - cbn [run_loop]. unfold bind at 1.
    pose proof (iteration_cases "pause" start_idx i g run w Hrun) as Hit.
    assert (Hp : gate_pauses "pause" start_idx i g = true).
    { unfold gate_pauses. rewrite Hg. cbn. apply Nat.ltb_lt. lia. }
    destruct (iteration "pause" start_idx i g run w) as [[r1|r1] w1].
    + destruct Hit as (_ & Hf & _). congruence.
    + cbn. destruct Hit as (_ & [(_ & Hr1 & _)|(Hf & _)]); [|congruence].
      right. subst r1. cbn. repeat split; f_equal; lia.
  - cbn [run_loop]. unfold bind at 1.
    pose proof (iteration_cases "pause" start_idx i s run w Hrun) as Hit.
    inversion Hpre as [|? ? Hs Hpre']; subst.
    assert (Hp : gate_pauses "pause" start_idx i s = false).
    { unfold gate_pauses. now rewrite Hs. }
    destruct (iteration "pause" start_idx i s run w) as [[r1|r1] w1].
    + destruct Hit as (_ & _ & Hst & _ & (_ & _ & _ & sr & Hsr) & _).
      specialize (IH (S i) r1 w1 Hst Hpre' Hg ltac:(lia)).
      destruct (run_loop "pause" start_idx (S i) (pre ++ g :: post) r1 w1) as [r' w'].
      destruct IH as [IH|(H1 & H2 & H3)]; [now left|right].
      repeat split; auto.
      * rewrite H2. f_equal. lia.
      * rewrite H3, Hsr. unfold append. rewrite length_app. cbn. lia.
    + cbn. destruct Hit as (_ & [(Hf & _)|(_ & Hst & _)]); [congruence|now left].
Qed.

Lemma single_gate_split (steps : list ChainStep) (k : nat) (g : ChainStep) :
  nth_error steps k = Some g ->
  (forall j s, nth_error steps j = Some s ->
               opt_eqb (cs_gate s) "approve" = true -> j = k) ->
  steps = (firstn k steps ++ g :: skipn (S k) steps)%list
  /\ List.length (firstn k steps) = k
  /\ Forall (fun s => opt_eqb (cs_gate s) "approve" = false) (firstn k steps).
Proof.
  intros Hk Huniq.
  assert (Hlen : k < List.length steps) by (apply nth_error_Some; congruence).
  repeat split.
  - rewrite <- (firstn_skipn k steps) at 1. f_equal.
    clear Huniq. revert k Hk Hlen. induction steps as [|a l IH]; intros [|k] Hk Hlen;
      cbn in *; try lia; try congruence.
    apply IH; [exact Hk | lia].
  - apply firstn_length_le. lia.
  - apply Forall_forall. intros s Hin.
    apply In_nth_error in Hin. destruct Hin as (j & Hj).
    assert (Hjk : j < k).
    { assert (j < List.length (firstn k steps)) by (apply nth_error_Some; congruence).
      rewrite length_firstn in *. lia. }
    rewrite nth_error_firstn in Hj.
    destruct (Nat.ltb j k) eqn:E; [|apply Nat.ltb_ge in E; lia].
    destruct (opt_eqb (cs_gate s) "approve") eqn:Hs; auto.
    specialize (Huniq j s Hj Hs). lia.
Qed.

(** ** [execute_chain] and [resume_chain_run] *)

Lemma chain_context_frame (chain_params : dict Value) (w : World) :
  match chain_context_of chain_params w with
  | (_, w') =>
      automations w' = automations w /\ runs w' = runs w /\ trace w' = trace w
  end.
Proof.
  unfold chain_context_of.
  destruct (truthy (Executor.get_or_none "cluster_id" chain_params)); cbn; auto.
  unfold bind, ask_env.
  destruct (get_cluster_params _ _) as [[[|kv cp]|] e]; cbn; auto.
Qed.

(** A fresh run enters the loop at index 0 in state [running], under the
    identifier drawn for it, with no step result. *)
Lemma execute_chain_enters_loop (automation_id : string) (chain_params : dict Value)
      (on_gate : string) (w : World) (automation : Automation) :
  PyDict.get automation_id (automations w) = Some automation ->
  exists run0 w0,
    r_status run0 = Running /\ r_step_results run0 = []
    /\ r_id run0 = Str.take 12 (fst (uuid4 (Executor.env (xw w))))
    /\ automations w0 = automations w /\ runs w0 = runs w /\ trace w0 = trace w
    /\ execute_chain automation_id chain_params on_gate w
       = (let (r, w') := run_loop on_gate 0 0 (au_steps automation) run0 w0 in
          (Returned r, w')).
Proof.
  intros Hget. unfold execute_chain, bind at 1, get_automation. rewrite Hget.
  unfold bind at 1, ask_env at 1.
  destruct (uuid4 (Executor.env (xw w))) as [uuid e1]. cbn [fst].
  unfold bind at 1, ask_env at 1. cbn [xw Executor.env Executor.history].
  destruct (utc_now e1) as [now e2].
  unfold bind at 1.
  match goal with
  | |- context [chain_context_of chain_params ?w2] =>
      pose proof (chain_context_frame chain_params w2) as Hf;
      destruct (chain_context_of chain_params w2) as [ctx w3]
  end.
  cbn in Hf. destruct Hf as (Ha & Hr & Ht).
  eexists. exists w3. repeat split; try eassumption; try reflexivity.
Qed.

(** [resume_chain_run] on a run that waits for approval, for an action
    other than [reject]. *)
Lemma resume_approve_eq (run_id action : string) (run : Run) (w : World) :
  PyDict.get run_id (runs w) = Some run ->
  r_status run = WaitingApproval ->
  String.eqb action "reject" = false ->
  resume_chain_run run_id action w
  = match PyDict.get (r_automation_id run) (automations w) with
    | None => (Error "Automation definition not found", w)
    | Some automation =>
        let (r, w') :=
          _run_steps automation (set_waiting_step None (set_status Running run))
            (Executor.opt_default (r_waiting_step run) 0) "pause" w in
        (Returned r, w')
    end.
Proof.
  intros Hget Hst Hact.
  unfold resume_chain_run, bind at 1, get_run. rewrite Hget, Hst, Hact.
  unfold bind at 1, get_automation.
  destruct (PyDict.get (r_automation_id run) (automations w)); reflexivity.
Qed.

Definition no_step_below (k : nat) (ev : Trace) : Prop :=
  match ev with TStep j => k <= j | TSave _ => True end.

Lemma event_ok_no_step_below (start_idx k : nat) (id : string) (tr : list Trace) :
  Forall (event_ok start_idx k id) tr -> Forall (no_step_below k) tr.
Proof.
  apply Forall_impl. intros [j|r]; cbn; auto.
Qed.

(** ** The steps a loop attempts *)

Definition flow_run (flow : Flow) : Run :=
  match flow with Next run | Return run => run end.

(** [step.get("id", f"step-{i+1}")] *)
Definition step_id_of (i : nat) (step : ChainStep) : string :=
  Executor.opt_default (cs_id step) ("step-" ++ Z_to_string (Z.of_nat (i + 1))).

(** A step result is the one of [step], attempted at index [i]. *)
Definition result_of (i : nat) (step : ChainStep) (sr : ChainStepResult) : Prop :=
  csr_step_id sr = step_id_of i step
  /\ csr_skill_name sr = cs_skill_name step
  /\ csr_label sr = Executor.opt_default (cs_label step) (cs_skill_name step).

(** The results are those of the first steps of [steps], in order, numbered
    from [i] on. *)
Fixpoint results_of (i : nat) (steps : list ChainStep) (more : list ChainStepResult)
         {struct more} : Prop :=
  match more with
  | [] => True
  | sr :: more' =>
      match steps with
      | [] => False
      | step :: rest => result_of i step sr /\ results_of (S i) rest more'
      end
  end.

(** The indices of the steps seen in a trace, in order. *)
Fixpoint attempts (tr : list Trace) : list nat :=
  match tr with
  | [] => []
  | TStep j :: rest => j :: attempts rest
  | TSave _ :: rest => attempts rest
  end.

Lemma attempts_app (a b : list Trace) :
  attempts (a ++ b) = (attempts a ++ attempts b)%list.
Proof.
  induction a as [|[j|r] a IH]; cbn; [reflexivity| |exact IH]. now rewrite IH.
Qed.

Lemma execute_step_result (step : ChainStep) (step_id : string) (device : Value)
      (params : dict Value) (x x' : Executor.XWorld) (sr : ChainStepResult)
      (entry : dict Value) (status : ExecutionStatus) :
  _execute_step step step_id device params x = (inl (sr, entry, status), x') ->
  csr_step_id sr = step_id
  /\ csr_skill_name sr = cs_skill_name step
  /\ csr_label sr = Executor.opt_default (cs_label step) (cs_skill_name step).
Proof.
  unfold _execute_step. destruct device; try discriminate.
  unfold Executor.bind, Executor.ret.
  destruct (Executor.execute_skill _ x) as [[result|e] x1]; [|discriminate].
  intros H. injection H as <- _ _ _. repeat split.
Qed.

(** A step that passes its gate leaves one result, its own; the chain part
    of the context is never written. *)
Lemma iteration_attempt (on_gate : string) (start_idx i : nat) (step : ChainStep)
      (run : Run) (w : World) :
  r_status run = Running ->
  gate_pauses on_gate start_idx i step = false ->
  exists sr,
    r_step_results (flow_run (fst (iteration on_gate start_idx i step run w)))
    = append (r_step_results run) sr
    /\ result_of i step sr.
Proof.
  intros Hrun Hg. unfold iteration.
  cbn [r_status set_current_step]. rewrite Hrun. cbn [is_running negb].
  rewrite orb_false_r. unfold gate_pauses in Hg. rewrite Hg.
  fold (step_id_of i step).
  unfold bind at 1. cbn [observe].
  destruct (negb (truthy (_resolve_device step _))).
  - destruct (opt_eqb (cs_on_failure step) "stop");
      [rewrite fail_run_eq; destruct (utc_now _)|];
      cbn; eexists; (split; [reflexivity|]); repeat split.
  - unfold bind at 1. unfold in_executor. cbn [xw].
    destruct (_execute_step step _ _ _ (xw w)) as [[[[sr entry] st]|e] x] eqn:Hx.
    + apply execute_step_result in Hx.
      match goal with
      | |- context [if ?c then _ else _] => destruct c
      end;
        [rewrite fail_run_eq; destruct (utc_now _)
        |match goal with
         | |- context [if ?c then _ else _] => destruct c
         end];
        cbn; exists sr; (split; [reflexivity|]); exact Hx.
    + destruct (opt_eqb (cs_on_failure step) "stop");
        [rewrite fail_run_eq; destruct (utc_now _)|];
        cbn; eexists; (split; [reflexivity|]); repeat split.
Qed.

Lemma iteration_chain_context (on_gate : string) (start_idx i : nat) (step : ChainStep)
      (run : Run) (w : World) :
  ctx_chain (r_context (flow_run (fst (iteration on_gate start_idx i step run w))))
  = ctx_chain (r_context run).
Proof.
  unfold iteration.
  match goal with
  | |- context [if ?c then _ else _] => destruct c
  end; [reflexivity|].
  unfold bind at 1. cbn [observe].
  destruct (negb (truthy (_resolve_device step _))).
  - destruct (opt_eqb (cs_on_failure step) "stop");
      [rewrite fail_run_eq; destruct (utc_now _)|]; reflexivity.
  - unfold bind at 1. unfold in_executor. cbn [xw].
    destruct (_execute_step step _ _ _ (xw w)) as [[[[sr entry] st]|e] x].
    + match goal with
      | |- context [if ?c then _ else _] => destruct c
      end;
        [rewrite fail_run_eq; destruct (utc_now _)
        |match goal with
         | |- context [if ?c then _ else _] => destruct c
         end]; reflexivity.
    + destruct (opt_eqb (cs_on_failure step) "stop");
        [rewrite fail_run_eq; destruct (utc_now _)|]; reflexivity.
Qed.

Lemma run_loop_chain_context (on_gate : string) (start_idx : nat)
      (steps : list ChainStep) :
  forall (i : nat) (run : Run) (w : World),
    ctx_chain (r_context (fst (run_loop on_gate start_idx i steps run w)))
    = ctx_chain (r_context run).
Proof.
  induction steps as [|step rest IH]; intros i run w.
  - cbn. unfold bind, ask_env, _save_run, ret.
    destruct (utc_now (Executor.env (xw w))) as [t e]. reflexivity.
  - cbn [run_loop]. unfold bind at 1.
    pose proof (iteration_chain_context on_gate start_idx i step run w) as Hit.
    destruct (iteration on_gate start_idx i step run w) as [[r1|r1] w1]; cbn in Hit.
    + now rewrite IH.
    + exact Hit.
Qed.

(** The results a loop adds are those of the steps it was given, in order,
    and the steps it is seen to attempt are as many, at consecutive indices
    from [i] on. *)
Lemma run_loop_attempts (on_gate : string) (start_idx : nat) (steps : list ChainStep) :
  forall (i : nat) (run : Run) (w : World),
    r_status run = Running ->
    match run_loop on_gate start_idx i steps run w with
    | (r', w') =>
        exists more tr,
          r_step_results r' = (r_step_results run ++ more)%list
          /\ results_of i steps more
          /\ trace w' = (trace w ++ tr)%list
          /\ attempts tr = seq i (List.length more)
    end.
Proof.
  induction steps as [|step rest IH]; intros i run w Hrun.
  - cbn. unfold bind, ask_env, _save_run, ret.
    destruct (utc_now (Executor.env (xw w))) as [t e]. cbn.
    exists [], [TSave (set_completed_at t (set_status Complete run))].
    rewrite app_nil_r. repeat split.
  - cbn [run_loop]. unfold bind at 1.
    pose proof (iteration_cases on_gate start_idx i step run w Hrun) as Hit.
    pose proof (iteration_attempt on_gate start_idx i step run w Hrun) as Hat.
    destruct (iteration on_gate start_idx i step run w) as [[r1|r1] w1]; cbn in Hat.
    + destruct Hit as (_ & Hg & Hst & _ & _ & Htr).
      destruct (Hat Hg) as (sr & Hsr & Hof).
      specialize (IH (S i) r1 w1 Hst).
      destruct (run_loop on_gate start_idx (S i) rest r1 w1) as [r' w'].
      destruct IH as (more & tr & Hm & Hres & Ht & Hatt).
      exists (sr :: more).
      destruct Htr as [(_ & Ht1)|(_ & Ht1)].
      * exists (TStep i :: tr). rewrite Hm, Hsr, Ht, Ht1. unfold append.
        split; [now rewrite <- app_assoc|]. split; [split; assumption|].
        split; [now rewrite <- app_assoc|]. cbn. now rewrite Hatt.
      * exists (TStep i :: TSave r1 :: tr). rewrite Hm, Hsr, Ht, Ht1. unfold append.
        split; [now rewrite <- app_assoc|]. split; [split; assumption|].
        split; [now rewrite <- app_assoc|]. cbn. now rewrite Hatt.
    + cbn. destruct Hit as (_ & [(_ & Hr1 & _ & _ & Ht)|(Hg & _ & _ & _ & _ & Ht)]).
      * subst r1. exists [], [TSave (paused_at i run)]. cbn.
        rewrite app_nil_r. repeat split. exact Ht.
      * destruct (Hat Hg) as (sr & Hsr & Hof).
        exists [sr], [TStep i; TSave r1]. cbn.
        split; [exact Hsr|]. split; [split; [exact Hof|exact I]|].
        split; [exact Ht|reflexivity].
Qed.

(** ** Steps that do not stop the run *)

(** The step, attempted in this state, resolves its device and its skill
    execution returns a status other than failed or rolled back. *)
Definition succeeds (i : nat) (step : ChainStep) (run : Run) (w : World) : bool :=
  let device := _resolve_device step (r_context run) in
  truthy device
  && match fst (_execute_step step (step_id_of i step) device
                  (_build_step_params step (r_context run)) (xw w)) with
     | inl (_, _, status) =>
         negb (status_eqb status FAILED || status_eqb status ROLLED_BACK)
     | inr _ => false
     end.

(** The step names a failure policy, and it is not [stop]. *)
Definition goes_on_after_failure (step : ChainStep) : bool :=
  match cs_on_failure step with
  | Some policy => negb (String.eqb policy "stop")
  | None => false
  end.

(** The steps [pre], attempted in turn from index [i] on in the states the
    loop takes them through, each succeed or may fail without stopping. *)
Fixpoint no_stopping_failure (on_gate : string) (start_idx i : nat)
         (pre : list ChainStep) (run : Run) (w : World) : bool :=
  match pre with
  | [] => true
  | step :: rest =>
      (succeeds i step run w || goes_on_after_failure step)
      && let (flow, w') := iteration on_gate start_idx i step run w in
         no_stopping_failure on_gate start_idx (S i) rest (flow_run flow) w'
  end.

Lemma iteration_goes_on (on_gate : string) (start_idx i : nat) (step : ChainStep)
      (run : Run) (w : World) :
  r_status run = Running ->
  gate_pauses on_gate start_idx i step = false ->
  succeeds i step run w || goes_on_after_failure step = true ->
  exists r' w', iteration on_gate start_idx i step run w = (Next r', w').
Proof.
  intros Hrun Hg Hok. unfold iteration.
  cbn [r_status set_current_step]. rewrite Hrun. cbn [is_running negb].
  rewrite orb_false_r. unfold gate_pauses in Hg. rewrite Hg.
  fold (step_id_of i step).
  unfold succeeds, goes_on_after_failure in Hok.
  change (r_context (set_current_step (i + 1) run)) with (r_context run).
  unfold bind at 1. cbn [observe].
  destruct (truthy (_resolve_device step (r_context run))) eqn:Hdev; cbn [negb andb] in *.
  - unfold bind at 1. unfold in_executor. cbn [xw fst] in *.
    destruct (_execute_step step _ _ _ (xw w)) as [[[[sr entry] st]|e] x]; cbn [fst] in Hok.
    + destruct (status_eqb st FAILED || status_eqb st ROLLED_BACK); cbn [negb andb orb] in *.
      * destruct (cs_on_failure step) as [policy|]; [|discriminate].
        cbn [Executor.opt_default]. apply negb_true_iff in Hok. rewrite Hok.
        destruct (String.eqb policy "skip"); cbn; do 2 eexists; reflexivity.
      * cbn. do 2 eexists; reflexivity.
    + cbn [orb] in Hok.
      destruct (cs_on_failure step) as [policy|]; [|discriminate].
      cbn [opt_eqb]. apply negb_true_iff in Hok. rewrite Hok.
      cbn. do 2 eexists; reflexivity.
  - cbn [orb] in Hok.
    destruct (cs_on_failure step) as [policy|]; [|discriminate].
    cbn [opt_eqb]. apply negb_true_iff in Hok. rewrite Hok.
    cbn. do 2 eexists; reflexivity.
Qed.

(** Up to the only approval gate, when no step stops the run: the run
    pauses at the gate, with one result for each step before it. *)
Lemma run_loop_reaches_gate (start_idx : nat) (g : ChainStep) (post : list ChainStep) :
  forall (pre : list ChainStep) (i : nat) (run : Run) (w : World),
    r_status run = Running ->
    Forall (fun s => opt_eqb (cs_gate s) "approve" = false) pre ->
    opt_eqb (cs_gate g) "approve" = true ->
    start_idx < i + List.length pre ->
    no_stopping_failure "pause" start_idx i pre run w = true ->
    match run_loop "pause" start_idx i (pre ++ g :: post) run w with
    | (r', _) =>
        r_status r' = WaitingApproval
        /\ r_waiting_step r' = Some (i + List.length pre)
        /\ List.length (r_step_results r')
           = List.length (r_step_results run) + List.length pre
    end.
Proof.
  induction pre as [|s pre IH]; intros i run w Hrun Hpre Hg Hlt Hpass;
    cbn [app List.length] in *.
  - pose proof (run_loop_to_gate start_idx g post [] i run w Hrun Hpre Hg) as H.
    cbn [app List.length] in H. specialize (H Hlt).
    cbn [run_loop] in *. unfold bind at 1 in H. unfold bind at 1.
    pose proof (iteration_cases "pause" start_idx i g run w Hrun) as Hit.
    assert (Hp : gate_pauses "pause" start_idx i g = true).
    { unfold gate_pauses. rewrite Hg. cbn. apply Nat.ltb_lt. lia. }
    destruct (iteration "pause" start_idx i g run w) as [[r1|r1] w1].
    + destruct Hit as (_ & Hf & _). congruence.
    + cbn. destruct Hit as (_ & [(_ & Hr1 & _)|(Hf & _)]); [|congruence].
      subst r1. cbn. repeat split; f_equal; lia.
  - cbn [no_stopping_failure] in Hpass. apply andb_prop in Hpass.
    destruct Hpass as (Hok & Hrest).
    inversion Hpre as [|? ? Hs Hpre']; subst.
    assert (Hp : gate_pauses "pause" start_idx i s = false).
    { unfold gate_pauses. now rewrite Hs. }
    cbn [run_loop]. unfold bind at 1.
    pose proof (iteration_cases "pause" start_idx i s run w Hrun) as Hit.
    destruct (iteration_goes_on "pause" start_idx i s run w Hrun Hp Hok)
      as (r1 & w1 & Heq).
    rewrite Heq in Hit, Hrest |- *. cbn [flow_run] in Hrest.
    destruct Hit as (_ & _ & Hst & _ & (_ & _ & _ & sr & Hsr) & _).
    specialize (IH (S i) r1 w1 Hst Hpre' Hg ltac:(lia) Hrest).
    destruct (run_loop "pause" start_idx (S i) (pre ++ g :: post) r1 w1) as [r' w'].
    destruct IH as (H1 & H2 & H3).
    repeat split; auto.
    + rewrite H2. f_equal. lia.
    + rewrite H3, Hsr. unfold append. rewrite length_app. cbn. lia.
Qed.

(** ** The run a chain starts with *)

(** The run [execute_chain] builds for a chain it has found (lines 235-264),
    in the world it then enters the loop in. *)
Definition first_run (automation_id : string) (automation : Automation)
           (chain_params : dict Value) : M Run :=
  bind (ask_env uuid4) (fun uuid =>
  bind (ask_env utc_now) (fun now =>
  bind (chain_context_of chain_params) (fun chain_context =>
  ret {| r_id := Str.take 12 uuid;
         r_automation_id := automation_id;
         r_automation_name := au_name automation;
         r_status := Running;
         r_chain_params := chain_params;
         r_current_step := 0;
         r_total_steps := List.length (au_steps automation);
         r_step_results := [];
         r_started_at := now;
         r_completed_at := None;
         r_waiting_step := None;
         r_context := mkContext chain_context [] |}))).

Lemma execute_chain_first_run (automation_id : string) (chain_params : dict Value)
      (on_gate : string) (w : World) (automation : Automation) :
  PyDict.get automation_id (automations w) = Some automation ->
  execute_chain automation_id chain_params on_gate w
  = (let (run0, w0) := first_run automation_id automation chain_params w in
     let (r, w') := run_loop on_gate 0 0 (au_steps automation) run0 w0 in
     (Returned r, w'))
  /\ r_status (fst (first_run automation_id automation chain_params w)) = Running
  /\ r_step_results (fst (first_run automation_id automation chain_params w)) = [].
Proof.
  intros Hget. unfold execute_chain, first_run, bind at 1, get_automation. rewrite Hget.
  unfold bind, ask_env, ret, _run_steps.
  destruct (uuid4 (Executor.env (xw w))) as [uuid e1].
  cbn [xw Executor.env Executor.history].
  destruct (utc_now e1) as [now e2].
  destruct (chain_context_of chain_params _) as [ctx w3]. cbn.
  repeat split.
Qed.

(** ** The claims on the orchestrator *)

(** C1.  A chain whose only approval gate is at index [k], [k > 0], run in
    [pause] mode, when each step before the gate, attempted in the state the
    run reaches it in, succeeds or fails under a policy other than [stop]:
    [execute_chain] returns a run that waits for approval at [k], saved
    under its identifier, with exactly [k] step results, those of the steps
    before the gate in order. *)
Theorem C1_pause_at_the_gate (w : World) (automation_id : string)
        (automation : Automation) (chain_params : dict Value) (k : nat) (g : ChainStep) :
  PyDict.get automation_id (automations w) = Some automation ->
  nth_error (au_steps automation) k = Some g ->
  opt_eqb (cs_gate g) "approve" = true ->
  (forall j s, nth_error (au_steps automation) j = Some s ->
               opt_eqb (cs_gate s) "approve" = true -> j = k) ->
  0 < k ->
  (let (run0, w0) := first_run automation_id automation chain_params w in
   no_stopping_failure "pause" 0 0 (firstn k (au_steps automation)) run0 w0 = true) ->
  exists run w',
    execute_chain automation_id chain_params "pause" w = (Returned run, w')
    /\ r_status run = WaitingApproval
    /\ r_waiting_step run = Some k
    /\ List.length (r_step_results run) = k
    /\ results_of 0 (au_steps automation) (r_step_results run)
    /\ PyDict.get (r_id run) (runs w') = Some run.
Proof.
  intros Hget Hk Hg Huniq Hpos Hpass.
  destruct (execute_chain_first_run automation_id chain_params "pause" w automation Hget)
    as (Heq & Hst & Hres).
  rewrite Heq.
  destruct (first_run automation_id automation chain_params w) as [run0 w0].
  cbn [fst] in Hst, Hres.
  destruct (single_gate_split (au_steps automation) k g Hk Huniq) as (Hsplit & Hlen & Hpre).
  pose proof (run_loop_reaches_gate 0 g (skipn (S k) (au_steps automation))
                (firstn k (au_steps automation)) 0 run0 w0 Hst Hpre Hg) as Hloop.
  rewrite <- Hsplit, Hlen in Hloop. specialize (Hloop Hpos Hpass).
  pose proof (run_loop_attempts "pause" 0 (au_steps automation) 0 run0 w0 Hst) as Hatt.
  pose proof (run_loop_spec "pause" 0 (au_steps automation) 0 run0 w0 Hst) as Hspec.
  destruct (run_loop "pause" 0 0 (au_steps automation) run0 w0) as [r w'].
  destruct Hloop as (H1 & H2 & H3).
  destruct Hatt as (more & tr & Hm & Hof & _).
  destruct Hspec as (_ & (Hid & _) & _ & _ & Hsaved & _).
  rewrite Hres in H3, Hm. cbn in H2, H3, Hm.
  exists r, w'. split; [reflexivity|]. split; [exact H1|]. split; [exact H2|].
  split; [exact H3|]. split; [now rewrite Hm|]. now rewrite Hid.
Qed.

(** C2, amended.  Resuming with [approve] a run that waits at index [k]:
    when the chain definition is still there, the run goes back to
    [running] with its waiting index cleared and re-enters the loop at [k].
    The results the resumed run adds are those of the steps of the chain
    from index [k] on, in order; the steps seen are as many, at the indices
    [k], [k+1], ...; none is below [k], and step [k] passes its gate.  When
    the chain definition is gone, an error is returned and nothing
    changes. *)
Theorem C2_resume_continues_at_waiting_step (w : World) (run_id : string) (run : Run)
        (k : nat) :
  PyDict.get run_id (runs w) = Some run ->
  r_status run = WaitingApproval ->
  r_waiting_step run = Some k ->
  match PyDict.get (r_automation_id run) (automations w) with
  | None =>
      resume_chain_run run_id "approve" w = (Error "Automation definition not found", w)
  | Some automation =>
      exists run' w' tr more,
        resume_chain_run run_id "approve" w = (Returned run', w')
        /\ (run', w') = _run_steps automation
                          (set_waiting_step None (set_status Running run)) k "pause" w
        /\ trace w' = (trace w ++ tr)%list
        /\ Forall (no_step_below k) tr
        /\ (k < List.length (au_steps automation) -> exists tr', tr = TStep k :: tr')
        /\ r_step_results run' = (r_step_results run ++ more)%list
        /\ results_of k (skipn k (au_steps automation)) more
        /\ attempts tr = seq k (List.length more)
  end.
Proof.
  intros Hget Hst Hk.
  rewrite (resume_approve_eq run_id "approve" run w Hget Hst eq_refl), Hk.
  cbn [Executor.opt_default].
  destruct (PyDict.get (r_automation_id run) (automations w)) as [automation|];
    [|reflexivity].
  unfold _run_steps.
  set (run1 := set_waiting_step None (set_status Running run)).
  assert (Hrun1 : r_status run1 = Running) by reflexivity.
  pose proof (run_loop_spec "pause" k (skipn k (au_steps automation)) k run1 w Hrun1)
    as Hspec.
  pose proof (run_loop_attempts "pause" k (skipn k (au_steps automation)) k run1 w Hrun1)
    as Hatt.
  destruct (skipn k (au_steps automation)) as [|step rest] eqn:Hskip.
  - destruct (run_loop "pause" k k [] run1 w) as [r' w'].
    destruct Hspec as (_ & _ & _ & _ & _ & tr & Htr & Hev).
    destruct Hatt as (more & tr0 & Hm & Hof & Htr0 & Hseq).
    assert (tr0 = tr) by (rewrite Htr0 in Htr; now apply app_inv_head in Htr).
    subst tr0.
    exists r', w', tr, more.
    split; [reflexivity|]. split; [reflexivity|]. split; [exact Htr|].
    split; [eapply event_ok_no_step_below; eauto|].
    split; [|split; [exact Hm|split; [exact Hof|exact Hseq]]].
    intros Hlt. exfalso.
    assert (List.length (skipn k (au_steps automation)) = 0) by now rewrite Hskip.
    rewrite length_skipn in *. lia.
  - assert (Hg : gate_pauses "pause" k k step = false).
    { unfold gate_pauses. rewrite Nat.ltb_irrefl. now rewrite andb_false_r. }
    pose proof (run_loop_first_step "pause" k k step rest run1 w Hrun1 Hg) as Hfirst.
    destruct (run_loop "pause" k k (step :: rest) run1 w) as [r' w'].
    destruct Hspec as (_ & _ & _ & _ & _ & tr & Htr & Hev).
    destruct Hatt as (more & tr0 & Hm & Hof & Htr0 & Hseq).
    assert (tr0 = tr) by (rewrite Htr0 in Htr; now apply app_inv_head in Htr).
    subst tr0.
    destruct Hfirst as ((tr' & Htr') & _).
    exists r', w', tr, more.
    split; [reflexivity|]. split; [reflexivity|]. split; [exact Htr|].
    split; [eapply event_ok_no_step_below; eauto|].
    split; [|split; [exact Hm|split; [exact Hof|exact Hseq]]].
    intros _. exists tr'. rewrite Htr' in Htr.
    now apply app_inv_head in Htr.
Qed.

(** C8.  Rejecting a run that waits for approval: the status becomes
    [cancelled], the completion time is set, the run is saved, no step is
    seen, and every other field is as it was. *)
Theorem C8_reject_cancels_and_keeps_the_rest (w : World) (run_id : string) (run : Run) :
  PyDict.get run_id (runs w) = Some run ->
  r_status run = WaitingApproval ->
  exists run' w' t,
    resume_chain_run run_id "reject" w = (Returned run', w')
    /\ r_status run' = Cancelled
    /\ r_completed_at run' = Some t
    /\ t = fst (utc_now (Executor.env (xw w)))
    /\ runs w' = PyDict.set (r_id run) run' (runs w)
    /\ trace w' = (trace w ++ [TSave run'])%list
    /\ automations w' = automations w
    /\ r_step_results run' = r_step_results run
    /\ r_id run' = r_id run
    /\ r_automation_id run' = r_automation_id run
    /\ r_automation_name run' = r_automation_name run
    /\ r_chain_params run' = r_chain_params run
    /\ r_current_step run' = r_current_step run
    /\ r_total_steps run' = r_total_steps run
    /\ r_started_at run' = r_started_at run
    /\ r_waiting_step run' = r_waiting_step run
    /\ r_context run' = r_context run.
Proof.
  intros Hget Hst.
  unfold resume_chain_run, bind at 1, get_run. rewrite Hget, Hst, String.eqb_refl.
  unfold bind, ask_env, _save_run, ret.
  destruct (utc_now (Executor.env (xw w))) as [t e]. cbn [fst].
  exists (set_completed_at t (set_status Cancelled run)). eexists. exists t.
  split; [reflexivity|]. cbn. repeat split.
Qed.

(** C10.  On a fresh run in [pause] mode the first step passes its gate,
    whatever the gate is ([approve] included): it is the first thing seen,
    it leaves a step result, and neither the run returned nor any snapshot
    saved waits for approval at index 0. *)
Theorem C10_first_step_is_never_gated (w : World) (automation_id : string)
        (automation : Automation) (chain_params : dict Value)
        (s0 : ChainStep) (rest : list ChainStep) :
  PyDict.get automation_id (automations w) = Some automation ->
  au_steps automation = s0 :: rest ->
  exists run w' tr,
    execute_chain automation_id chain_params "pause" w = (Returned run, w')
    /\ trace w' = (trace w ++ TStep 0 :: tr)%list
    /\ (exists sr more, r_step_results run = sr :: more)
    /\ (forall r, r = run \/ In (TSave r) tr ->
                  r_status r = WaitingApproval ->
                  exists j, r_waiting_step r = Some j /\ 0 < j).
Proof.
  intros Hget Hsteps.
  destruct (execute_chain_enters_loop automation_id chain_params "pause" w automation Hget)
    as (run0 & w0 & Hst & Hres & _ & _ & _ & Ht0 & Heq).
  rewrite Heq, Hsteps.
  assert (Hg : gate_pauses "pause" 0 0 s0 = false).
  { unfold gate_pauses. cbn. now rewrite andb_false_r. }
  pose proof (run_loop_first_step "pause" 0 0 s0 rest run0 w0 Hst Hg) as Hfirst.
  pose proof (run_loop_spec "pause" 0 (s0 :: rest) 0 run0 w0 Hst) as Hspec.
  destruct (run_loop "pause" 0 0 (s0 :: rest) run0 w0) as [r' w'].
  destruct Hfirst as ((tr' & Htr') & sr & more & Hsr).
  destruct Hspec as (_ & Hs & _ & _ & _ & tr & Htr & Hev).
  rewrite Htr' in Htr. apply app_inv_head in Htr. subst tr.
  exists r', w', tr'. rewrite <- Ht0. repeat split; auto.
  - rewrite Hres in Hsr. eauto.
  - intros r [->|Hin].
    + apply Hs.
    + inversion Hev as [|? ? _ Hev']; subst.
      rewrite Forall_forall in Hev'. apply (Hev' _ Hin).
Qed.

(** *** Operations on the run store *)

Inductive Operation : Type :=
| OpExecute (automation_id : string) (chain_params : dict Value) (on_gate : string)
| OpResume (run_id action : string).

Definition perform (op : Operation) : M Outcome :=
  match op with
  | OpExecute automation_id chain_params on_gate =>
      execute_chain automation_id chain_params on_gate
  | OpResume run_id action => resume_chain_run run_id action
  end.

Fixpoint perform_all (ops : list Operation) (w : World) : World :=
  match ops with
  | [] => w
  | op :: rest => perform_all rest (snd (perform op w))
  end.

(** The identifier [uuid4] gives to the run an operation creates is not [id]. *)
Definition draws_other_id (id : string) (op : Operation) (w : World) : Prop :=
  match op with
  | OpExecute _ _ _ => Str.take 12 (fst (uuid4 (Executor.env (xw w)))) <> id
  | OpResume _ _ => True
  end.

Fixpoint ids_fresh (id : string) (ops : list Operation) (w : World) : Prop :=
  match ops with
  | [] => True
  | op :: rest => draws_other_id id op w /\ ids_fresh id rest (snd (perform op w))
  end.

(** Every run is stored under its own identifier. *)
Definition store_ok (w : World) : Prop :=
  forall k r, PyDict.get k (runs w) = Some r -> r_id r = k.

Lemma dict_get_in {V} (k : string) (v : V) (d : dict V) :
  PyDict.get k d = Some v -> In (k, v) d.
Proof.
  induction d as [|[k' v'] d IH]; cbn; [discriminate|].
  destruct (String.eqb k k') eqn:E.
  - apply String.eqb_eq in E. subst. intros [= ->]. now left.
  - intros H. right. now apply IH.
Qed.

Lemma store_ok_of_check (w : World) :
  forallb (fun kv => String.eqb (r_id (snd kv)) (fst kv)) (runs w) = true ->
  store_ok w.
Proof.
  intros Hall k r Hget. apply dict_get_in in Hget.
  rewrite forallb_forall in Hall. specialize (Hall _ Hget).
  now apply String.eqb_eq in Hall.
Qed.

Lemma run_loop_store (on_gate : string) (start_idx i : nat) (steps : list ChainStep)
      (run : Run) (w : World) :
  r_status run = Running -> store_ok w ->
  match run_loop on_gate start_idx i steps run w with
  | (r', w') =>
      store_ok w'
      /\ PyDict.get (r_id r') (runs w') = Some r'
      /\ (is_terminal (r_status r') = true -> r_completed_at r' <> None)
      /\ (forall k, k <> r_id run -> PyDict.get k (runs w') = PyDict.get k (runs w))
  end.
Proof.
  intros Hrun Hok.
  pose proof (run_loop_spec on_gate start_idx steps i run w Hrun) as Hspec.
  destruct (run_loop on_gate start_idx i steps run w) as [r' w'].
  destruct Hspec as (_ & (Hid & Hterm & _) & _ & Hk & Hget & _).
  repeat split; auto.
  - intros k r Hr. destruct (string_dec k (r_id run)) as [->|Hne].
    + rewrite Hget in Hr. injection Hr as <-. exact Hid.
    + rewrite (Hk k Hne) in Hr. now apply Hok.
  - now rewrite Hid.
Qed.

Lemma perform_frame (op : Operation) (w : World) :
  store_ok w ->
  match perform op w with
  | (out, w') =>
      store_ok w'
      /\ (forall run, out = Returned run ->
                      PyDict.get (r_id run) (runs w') = Some run
                      /\ (is_terminal (r_status run) = true -> r_completed_at run <> None))
      /\ (forall id r, PyDict.get id (runs w) = Some r ->
                       is_terminal (r_status r) = true ->
                       draws_other_id id op w ->
                       PyDict.get id (runs w') = Some r)
  end.
Proof.
  intros Hok. destruct op as [automation_id chain_params on_gate | run_id action]; cbn [perform].
  - destruct (PyDict.get automation_id (automations w)) as [automation|] eqn:Hget.
    + destruct (execute_chain_enters_loop automation_id chain_params on_gate w automation Hget)
        as (run0 & w0 & Hst & _ & Hid0 & _ & Hr0 & _ & Heq).
      rewrite Heq.
      assert (Hok0 : store_ok w0) by (unfold store_ok; now rewrite Hr0).
      pose proof (run_loop_store on_gate 0 0 (au_steps automation) run0 w0 Hst Hok0) as Hl.
      destruct (run_loop on_gate 0 0 (au_steps automation) run0 w0) as [r' w'].
      destruct Hl as (Hok' & Hget' & Hterm & Hk).
      split; [exact Hok'|]. split.
      * intros run [= <-]. split; [exact Hget' | exact Hterm].
      * intros id r Hr _ Hfresh. cbn in Hfresh.
        rewrite Hk, Hr0; [exact Hr|]. rewrite Hid0. auto.
    + unfold execute_chain, bind, get_automation, ret. rewrite Hget.
      split; [exact Hok|]. split; [discriminate|auto].
  - unfold resume_chain_run, bind at 1, get_run.
    destruct (PyDict.get run_id (runs w)) as [run|] eqn:Hget;
      [|cbn; split; [exact Hok|]; split; [discriminate|auto]].
    pose proof (Hok _ _ Hget) as Hrid.
    destruct (r_status run) eqn:Hst;
      try (cbn; split; [exact Hok|]; split; [discriminate|auto]).
    destruct (String.eqb action "reject") eqn:Hact.
    + unfold bind, ask_env, _save_run, ret.
      destruct (utc_now (Executor.env (xw w))) as [t e]. cbn.
      split; [|split].
      * intros k r Hr. cbn in Hr. destruct (string_dec k (r_id run)) as [->|Hne].
        -- rewrite dict_get_set_same in Hr. now injection Hr as <-.
        -- rewrite dict_get_set_other in Hr by exact Hne. now apply Hok.
      * intros run2 [= <-]. cbn. split; [apply dict_get_set_same | discriminate].
      * intros id r Hr Hterm _.
        rewrite dict_get_set_other; [exact Hr|].
        intros ->. rewrite Hrid, Hget in Hr. injection Hr as <-.
        rewrite Hst in Hterm. discriminate.
    + unfold bind at 1, get_automation.
      destruct (PyDict.get (r_automation_id run) (automations w)) as [automation|];
        [|cbn; split; [exact Hok|]; split; [discriminate|auto]].
      unfold bind, _run_steps.
      set (run1 := set_waiting_step None (set_status Running run)).
      pose proof (run_loop_store "pause" (Executor.opt_default (r_waiting_step run) 0)
                    (Executor.opt_default (r_waiting_step run) 0)
                    (skipn (Executor.opt_default (r_waiting_step run) 0)
                       (au_steps automation)) run1 w eq_refl Hok) as Hl.
      destruct (run_loop _ _ _ _ run1 w) as [r' w'].
      destruct Hl as (Hok' & Hget' & Hterm & Hk). cbn.
      split; [exact Hok'|]. split.
      * intros run2 [= <-]. split; [exact Hget' | exact Hterm].
      * intros id r Hr Hterm' _. rewrite Hk; [exact Hr|].
        intros ->. change (r_id run1) with (r_id run) in Hr.
        rewrite Hrid, Hget in Hr. injection Hr as <-.
        rewrite Hst in Hterm'. discriminate.
Qed.

Lemma terminal_run_is_kept (ops : list Operation) :
  forall (w : World) (run : Run),
    store_ok w ->
    PyDict.get (r_id run) (runs w) = Some run ->
    is_terminal (r_status run) = true ->
    ids_fresh (r_id run) ops w ->
    PyDict.get (r_id run) (runs (perform_all ops w)) = Some run.
Proof.
  induction ops as [|op ops IH]; intros w run Hok Hget Hterm Hfresh; cbn in *; auto.
  destruct Hfresh as (Hop & Hrest).
  pose proof (perform_frame op w Hok) as Hf.
  destruct (perform op w) as [out w1]. cbn in *.
  destruct Hf as (Hok1 & _ & Hkeep).
  apply IH; auto.
Qed.

(** C9.  When an operation leaves a run in a terminal state, the completion
    time is set in the run it returns, which is the run it stored; resuming
    that run later is refused and changes nothing, and the stored run stays
    as it is through any later operations (a new run never being given the
    identifier of an existing one). *)
Theorem C9_terminal_runs_are_final (w : World) (op : Operation) (run : Run) (w' : World) :
  store_ok w ->
  perform op w = (Returned run, w') ->
  is_terminal (r_status run) = true ->
  r_completed_at run <> None
  /\ PyDict.get (r_id run) (runs w') = Some run
  /\ (forall action, exists msg,
         resume_chain_run (r_id run) action w' = (Error msg, w'))
  /\ (forall ops, ids_fresh (r_id run) ops w' ->
                  PyDict.get (r_id run) (runs (perform_all ops w')) = Some run).
Proof.
  intros Hok Hop Hterm.
  pose proof (perform_frame op w Hok) as Hf. rewrite Hop in Hf.
  destruct Hf as (Hok' & Hret & _).
  destruct (Hret run eq_refl) as (Hget & Hc).
  repeat split; auto.
  - intros action. unfold resume_chain_run, bind, get_run, ret. rewrite Hget.
    destruct (r_status run); try discriminate; eexists; reflexivity.
  - intros ops Hfresh. now apply terminal_run_is_kept.
Qed.

(** C7, amended.  The run [execute_chain] starts a chain with, and the run
    it returns, carry the initial chain context.  With a truthy [cluster_id]
    the pool is asked once, after the identifier and the start time are
    drawn, and when it returns a mapping every key reads the caller's value
    when the caller gives one and the pool's otherwise.  With no
    [cluster_id], a falsy one, or nothing from the pool, the context is the
    caller's parameters; with a falsy [cluster_id] the pool is not asked:
    the loop is entered in the environment the start time left. *)
Theorem C7_cluster_parameters_are_defaults (automation_id : string)
        (automation : Automation) (chain_params : dict Value) (on_gate : string)
        (w : World) :
  PyDict.get automation_id (automations w) = Some automation ->
  NoDup (map fst chain_params) ->
  let cluster_id := Executor.get_or_none "cluster_id" chain_params in
  let asked := snd (utc_now (snd (uuid4 (Executor.env (xw w))))) in
  let pool := fst (get_cluster_params cluster_id asked) in
  exists run0 w0 run w',
    first_run automation_id automation chain_params w = (run0, w0)
    /\ execute_chain automation_id chain_params on_gate w = (Returned run, w')
    /\ (run, w') = _run_steps automation run0 0 on_gate w0
    /\ ctx_steps (r_context run0) = []
    /\ ctx_chain (r_context run) = ctx_chain (r_context run0)
    /\ (truthy cluster_id = true ->
        Executor.env (xw w0) = snd (get_cluster_params cluster_id asked)
        /\ forall cluster_params, pool = Some cluster_params ->
             forall k, PyDict.get k (ctx_chain (r_context run0))
                       = match PyDict.get k chain_params with
                         | Some v => Some v
                         | None => PyDict.get k cluster_params
                         end)
    /\ (PyDict.get "cluster_id" chain_params = None \/ truthy cluster_id = false
        \/ pool = None ->
        ctx_chain (r_context run0) = chain_params)
    /\ (truthy cluster_id = false -> Executor.env (xw w0) = asked).
Proof.
  intros Hget Hnd cluster_id asked pool.
  destruct (execute_chain_first_run automation_id chain_params on_gate w automation Hget)
    as (Heq & _ & _).
  rewrite Heq. clear Heq.
  assert (Hfirst : exists run0 w0,
             first_run automation_id automation chain_params w = (run0, w0)
             /\ ctx_steps (r_context run0) = []
             /\ (truthy cluster_id = true ->
                 Executor.env (xw w0) = snd (get_cluster_params cluster_id asked)
                 /\ forall cluster_params, pool = Some cluster_params ->
                      forall k, PyDict.get k (ctx_chain (r_context run0))
                                = match PyDict.get k chain_params with
                                  | Some v => Some v
                                  | None => PyDict.get k cluster_params
                                  end)
             /\ (PyDict.get "cluster_id" chain_params = None
                 \/ truthy cluster_id = false \/ pool = None ->
                 ctx_chain (r_context run0) = chain_params)
             /\ (truthy cluster_id = false -> Executor.env (xw w0) = asked)).
  { subst pool asked. unfold first_run, bind, ask_env, ret.
    destruct (uuid4 (Executor.env (xw w))) as [uuid e1].
    cbn [xw Executor.env Executor.history fst snd].
    destruct (utc_now e1) as [now e2]. cbn [fst snd].
    unfold chain_context_of. fold cluster_id.
    assert (Habs : PyDict.get "cluster_id" chain_params = None ->
                   truthy cluster_id = false).
    { intros Habs. unfold cluster_id, Executor.get_or_none, PyDict.get_default.
      now rewrite Habs. }
    destruct (truthy cluster_id) eqn:Ht.
    - unfold bind, ask_env, ret. cbn [xw Executor.env Executor.history].
      destruct (get_cluster_params cluster_id e2) as [o e3]. cbn [fst snd].
      destruct o as [[|kv cp]|]; do 2 eexists; (split; [reflexivity|]); cbn;
        (split; [reflexivity|]); (split; [|split]).
      + intros _. split; [reflexivity|]. intros cp' Hcp k. injection Hcp as <-.
        now destruct (PyDict.get k chain_params).
      + reflexivity.
      + discriminate.
      + intros _. split; [reflexivity|]. intros cp' Hcp k. injection Hcp as <-.
        now apply dict_get_update.
      + intros [H|[H|H]]; [specialize (Habs H)| |]; discriminate.
      + discriminate.
      + intros _. split; [reflexivity|]. intros cp' Hcp. discriminate.
      + reflexivity.
      + discriminate.
    - unfold ret. do 2 eexists. split; [reflexivity|]. cbn.
      split; [reflexivity|]. split; [discriminate|]. split; reflexivity. }
  destruct Hfirst as (run0 & w0 & Hfirst & Hsteps & Hrest).
  rewrite Hfirst. unfold _run_steps. cbn [skipn].
  pose proof (run_loop_chain_context on_gate 0 (au_steps automation) 0 run0 w0) as Hctx.
  destruct (run_loop on_gate 0 0 (au_steps automation) run0 w0) as [r w'] eqn:Hloop.
  exists run0, w0, r, w'.
  split; [reflexivity|]. split; [reflexivity|].
  split; [unfold _run_steps; cbn [skipn]; now rewrite Hloop|].
  split; [exact Hsteps|]. split; [exact Hctx | exact Hrest].
Qed.

End Facts.

(** ** The orchestrator on concrete chains

    A catalog of two one-step skills, one device, and chains over them. *)

Definition B0 : PyBuiltins := Scripted.builtins.

Definition catalog : dict Skill :=
  [("A", mkSkill [Scripted.step "a" "run-a" false] []);
   ("B", mkSkill [Scripted.step "b" "run-b" false] [])].

Definition vault_entry : dict Value :=
  [("mgmt_ip", VStr "192.0.2.10"); ("username", VStr "admin")].

Definition vault : dict (dict Value) := [("bigip01", vault_entry)].

(** The pool knows one cluster, whatever the identifier asked for. *)
Definition pool (cluster_id : Value) : option (dict Value) :=
  Some [("cluster_id", cluster_id); ("proxmox_node", VStr "pve01");
        ("device", VStr "pool-device")].

Definition C0 : Collaborators :=
  Scripted.collaborators catalog vault
    (Scripted.answer [("run-a", "done a"); ("run-b", "done b")]) pool.

Definition step_A : Engine.ChainStep := Scripted.chain_step "A" "auto" "stop" [].
Definition step_B : Engine.ChainStep := Scripted.chain_step "B" "approve" "stop" [].

(** [A] then [B] behind an approval gate. *)
Definition chain_AB : Engine.Automation := Engine.mkAutomation "A then B" [step_A; step_B].

(** The gate on the first step. *)
Definition chain_BA : Engine.Automation := Engine.mkAutomation "B then A" [step_B; step_A].

(** A skill the catalog does not have, skipped on failure, then [A]. *)
Definition chain_skip : Engine.Automation :=
  Engine.mkAutomation "skip then A"
    [Scripted.chain_step "missing" "auto" "skip" []; step_A].

Definition chains : dict Engine.Automation :=
  [("ab", chain_AB); ("ba", chain_BA); ("skip", chain_skip)].

Definition params : dict Value := [("device", VStr "bigip01")].

Definition w0 : Engine.World := Scripted.world C0 0 chains [].

(** A skill the catalog does not have, skipped on failure, then [A], then
    [B] behind an approval gate, in a store of its own. *)
Definition chain_gated : Engine.Automation :=
  Engine.mkAutomation "skip, A, then B"
    [Scripted.chain_step "missing" "auto" "skip" []; step_A; step_B].

Definition w_gated : Engine.World := Scripted.world C0 0 [("gated", chain_gated)] [].

Definition run (automation_id : string) (chain_params : dict Value) (w : Engine.World)
  : Engine.Outcome * Engine.World :=
  @Engine.execute_chain B0 C0 automation_id chain_params "pause" w.

Definition resume (run_id action : string) (w : Engine.World)
  : Engine.Outcome * Engine.World :=
  @Engine.resume_chain_run B0 C0 run_id action w.

(** The world after [chain_AB] has paused at its gate, and the same world
    once the chain definition has been deleted. *)
Definition w_paused : Engine.World := snd (run "ab" params w0).

Definition w_orphan : Engine.World :=
  Engine.mkWorld (Engine.xw w_paused) [] (Engine.runs w_paused) (Engine.trace w_paused).

Definition paused_id : string := "0-4f1c-9a2e-".

(** What a trace shows of a run: the steps seen, and for each save the
    status and the number of step results written. *)
Inductive Seen : Type :=
| SeenStep (i : nat)
| SeenSave (status : Engine.RunStatus) (results : nat).

Definition seen (t : Engine.Trace) : Seen :=
  match t with
  | Engine.TStep i => SeenStep i
  | Engine.TSave r => SeenSave (Engine.r_status r) (List.length (Engine.r_step_results r))
  end.

(** Every step seen is followed by a save before anything else is seen. *)
Fixpoint saved_after_each_step (tr : list Seen) : bool :=
  match tr with
  | [] => true
  | SeenStep _ :: rest =>
      match rest with
      | SeenSave _ _ :: _ => saved_after_each_step rest
      | _ => false
      end
  | SeenSave _ _ :: rest => saved_after_each_step rest
  end.

Lemma C1_witness :
  exists r w',
    @Engine.execute_chain B0 C0 "gated" params "pause" w_gated = (Engine.Returned r, w')
    /\ Engine.r_status r = Engine.WaitingApproval
    /\ Engine.r_waiting_step r = Some 2
    /\ List.length (Engine.r_step_results r) = 2
    /\ map Engine.csr_skill_name (Engine.r_step_results r) = ["missing"; "A"]
    /\ map Engine.csr_status (Engine.r_step_results r) = ["failed"; "complete"].
Proof.
  assert (Huniq : forall j s, nth_error (Engine.au_steps chain_gated) j = Some s ->
                    Engine.opt_eqb (Engine.cs_gate s) "approve" = true -> j = 2).
  { intros [|[|[|[|j]]]] s Hs Hg; cbn in Hs; try discriminate; auto;
      injection Hs as <-; discriminate. }
  assert (Hpass : let (run0, w0) :=
                    @first_run B0 C0 "gated" chain_gated params w_gated in
                  @no_stopping_failure B0 C0 "pause" 0 0
                    (firstn 2 (Engine.au_steps chain_gated)) run0 w0 = true).
  { vm_compute. reflexivity. }
  destruct (@C1_pause_at_the_gate B0 C0 w_gated "gated" chain_gated params 2 step_B
              eq_refl eq_refl eq_refl Huniq (Nat.lt_0_succ 1) Hpass)
    as (r & w' & Heq & Hs & Hw & Hl & _).
  exists r, w'. split; [exact Heq|]. split; [exact Hs|]. split; [exact Hw|].
  split; [exact Hl|].
  vm_compute in Heq. injection Heq as <- _. split; reflexivity.
Defined.

Lemma C2_counterexample :
  exists r,
    PyDict.get paused_id (Engine.runs w_orphan) = Some r
    /\ Engine.r_status r = Engine.WaitingApproval
    /\ Engine.r_waiting_step r = Some 1
    /\ resume paused_id "approve" w_orphan
       = (Engine.Error "Automation definition not found", w_orphan).
Proof.
  vm_compute. eexists. repeat split.
Qed.

Lemma C2_witness :
  exists r r' w' tr tr' more,
    PyDict.get paused_id (Engine.runs w_paused) = Some r
    /\ resume paused_id "approve" w_paused = (Engine.Returned r', w')
    /\ Engine.trace w' = (Engine.trace w_paused ++ tr)%list
    /\ Forall (no_step_below 1) tr
    /\ tr = Engine.TStep 1 :: tr'
    /\ Engine.r_step_results r' = (Engine.r_step_results r ++ more)%list
    /\ results_of 1 [step_B] more
    /\ attempts tr = seq 1 (List.length more)
    /\ map Engine.csr_skill_name (Engine.r_step_results r') = ["A"; "B"]
    /\ map Engine.csr_step_id (Engine.r_step_results r') = ["step-1"; "step-2"].
Proof.
  assert (Hr : exists r, PyDict.get paused_id (Engine.runs w_paused) = Some r
                         /\ Engine.r_status r = Engine.WaitingApproval
                         /\ Engine.r_waiting_step r = Some 1
                         /\ Engine.r_automation_id r = "ab").
  { vm_compute. eexists. repeat split. }
  destruct Hr as (r & Hget & Hst & Hk & Haut).
  pose proof (@C2_resume_continues_at_waiting_step B0 C0 w_paused paused_id r 1
                Hget Hst Hk) as H.
  rewrite Haut in H.
  change (PyDict.get "ab" (Engine.automations w_paused)) with (Some chain_AB) in H.
  destruct H as (r' & w' & tr & more & Heq & _ & Htr & Hall & Hfirst & Hm & Hof & Hseq).
  destruct (Hfirst (Nat.lt_succ_diag_r 1)) as (tr' & Htr').
  exists r, r', w', tr, tr', more.
  split; [exact Hget|]. split; [exact Heq|]. split; [exact Htr|].
  split; [exact Hall|]. split; [exact Htr'|]. split; [exact Hm|].
  split; [exact Hof|]. split; [exact Hseq|].
  vm_compute in Heq. injection Heq as <- _. split; reflexivity.
Defined.

(** C3 at a failing input.  In [chain_skip] the first step fails and is
    skipped: the second step is seen before anything is saved, and the first
    snapshot written already holds two step results.  When the device of a
    skipped step cannot be resolved it is the same; when the execution
    raises instead (here the device is not a string), the run is saved after
    the step. *)
Theorem C3_skipped_step_is_not_saved :
  map seen (Engine.trace (snd (run "skip" params w0)))
  = [SeenStep 0; SeenStep 1; SeenSave Engine.Running 2; SeenSave Engine.Complete 2]
  /\ saved_after_each_step (map seen (Engine.trace (snd (run "skip" params w0)))) = false
  /\ map seen (Engine.trace (snd (run "skip" [] w0)))
     = [SeenStep 0; SeenStep 1; SeenSave Engine.Failed 2]
  /\ map seen (Engine.trace (snd (run "skip" [("device", VInt 7)] w0)))
     = [SeenStep 0; SeenSave Engine.Running 1; SeenStep 1; SeenSave Engine.Failed 2].
Proof. vm_compute. repeat split. Qed.

Lemma C7_counterexample :
  let chain_params := [("cluster_id", VInt 0); ("device", VStr "bigip01")] in
  PyDict.mem "cluster_id" chain_params = true
  /\ (forall e, fst (@get_cluster_params C0 (VInt 0) e)
                = Some [("cluster_id", VInt 0); ("proxmox_node", VStr "pve01");
                        ("device", VStr "pool-device")])
  /\ PyDict.get "proxmox_node" chain_params = None
  /\ fst (@Engine.chain_context_of B0 C0 chain_params w0) = chain_params
  /\ exists r w',
       run "ab" chain_params w0 = (Engine.Returned r, w')
       /\ Engine.ctx_chain (Engine.r_context r) = chain_params
       /\ PyDict.get "proxmox_node" (Engine.ctx_chain (Engine.r_context r)) = None.
Proof.
  cbv zeta. split; [reflexivity|]. split; [intros e; reflexivity|].
  split; [reflexivity|]. split; [reflexivity|].
  do 2 eexists. split; [vm_compute; reflexivity|]. split; reflexivity.
Qed.

Lemma C7_witness :
  let chain_params := [("cluster_id", VStr "ecmp-1"); ("device", VStr "bigip01")] in
  let unnamed := [("cluster_id", VInt 0); ("device", VStr "bigip01")] in
  exists r w' r2 w2 run3 w3,
    run "ab" chain_params w0 = (Engine.Returned r, w')
    /\ PyDict.get "device" (Engine.ctx_chain (Engine.r_context r)) = Some (VStr "bigip01")
    /\ PyDict.get "proxmox_node" (Engine.ctx_chain (Engine.r_context r))
       = Some (VStr "pve01")
    /\ PyDict.get "cluster_id" (Engine.ctx_chain (Engine.r_context r))
       = Some (VStr "ecmp-1")
    /\ run "ab" params w0 = (Engine.Returned r2, w2)
    /\ Engine.ctx_chain (Engine.r_context r2) = params
    /\ @first_run B0 C0 "ab" chain_AB unnamed w0 = (run3, w3)
    /\ Engine.ctx_chain (Engine.r_context run3) = unnamed
    /\ Executor.env (Engine.xw w3) = 2.
Proof.
  cbv zeta.
  assert (Hnd : NoDup (map fst [("cluster_id", VStr "ecmp-1"); ("device", VStr "bigip01")])).
  { repeat constructor; cbn; intuition discriminate. }
  assert (Hnd' : NoDup (map fst params)).
  { repeat constructor; cbn; intuition discriminate. }
  assert (Hnd3 : NoDup (map fst [("cluster_id", VInt 0); ("device", VStr "bigip01")])).
  { repeat constructor; cbn; intuition discriminate. }
  destruct (@C7_cluster_parameters_are_defaults B0 C0 "ab" chain_AB
              [("cluster_id", VStr "ecmp-1"); ("device", VStr "bigip01")] "pause" w0
              eq_refl Hnd)
    as (run0 & w00 & r & w' & _ & Heq & _ & _ & Hctx & Htruthy & _ & _).
  destruct (Htruthy eq_refl) as (_ & Hmerge).
  destruct (@C7_cluster_parameters_are_defaults B0 C0 "ab" chain_AB params "pause" w0
              eq_refl Hnd')
    as (run1 & w01 & r2 & w2 & _ & Heq2 & _ & _ & Hctx2 & _ & Hsame & _).
  destruct (@C7_cluster_parameters_are_defaults B0 C0 "ab" chain_AB
              [("cluster_id", VInt 0); ("device", VStr "bigip01")] "pause" w0
              eq_refl Hnd3)
    as (run3 & w3 & r3 & w3' & Hfirst3 & _ & _ & _ & _ & _ & Hsame3 & Hfalsy).
  exists r, w', r2, w2, run3, w3.
  split; [exact Heq|].
  split; [rewrite Hctx; exact (Hmerge _ eq_refl "device")|].
  split; [rewrite Hctx; exact (Hmerge _ eq_refl "proxmox_node")|].
  split; [rewrite Hctx; exact (Hmerge _ eq_refl "cluster_id")|].
  split; [exact Heq2|].
  split; [rewrite Hctx2; apply Hsame; left; reflexivity|].
  split; [exact Hfirst3|].
  split; [apply Hsame3; right; left; reflexivity|].
  exact (Hfalsy eq_refl).
Defined.

Lemma C8_witness :
  exists r r' w',
    PyDict.get paused_id (Engine.runs w_paused) = Some r
    /\ resume paused_id "reject" w_paused = (Engine.Returned r', w')
    /\ Engine.r_status r' = Engine.Cancelled
    /\ Engine.r_completed_at r' <> None
    /\ Engine.r_step_results r' = Engine.r_step_results r
    /\ List.length (Engine.r_step_results r') = 1
    /\ Engine.trace w' = (Engine.trace w_paused ++ [Engine.TSave r'])%list.
Proof.
  assert (Hr : exists r, PyDict.get paused_id (Engine.runs w_paused) = Some r
                         /\ Engine.r_status r = Engine.WaitingApproval
                         /\ List.length (Engine.r_step_results r) = 1).
  { vm_compute. eexists. repeat split. }
  destruct Hr as (r & Hget & Hst & Hlen).
  destruct (@C8_reject_cancels_and_keeps_the_rest B0 C0 w_paused paused_id r Hget Hst)
    as (r' & w' & t & Heq & Hc & Ht & _ & _ & Htr & _ & Hres & _).
  exists r, r', w'. repeat split; auto.
  - rewrite Ht. discriminate.
  - now rewrite Hres.
Defined.

(** The world after the paused run has been rejected. *)
Definition w_rejected : Engine.World := snd (resume paused_id "reject" w_paused).

Lemma C9_witness :
  exists r,
    @perform B0 C0 (OpResume paused_id "reject") w_paused = (Engine.Returned r, w_rejected)
    /\ Engine.r_status r = Engine.Cancelled
    /\ Engine.r_completed_at r <> None
    /\ (exists msg,
          @Engine.resume_chain_run B0 C0 (Engine.r_id r) "approve" w_rejected
          = (Engine.Error msg, w_rejected))
    /\ PyDict.get (Engine.r_id r)
         (Engine.runs
            (@perform_all B0 C0
               [OpResume paused_id "approve"; OpExecute "ab" params "pause";
                OpResume paused_id "reject"; OpExecute "skip" params "auto_approve"]
               w_rejected))
       = Some r.
Proof.
  assert (Hok : @store_ok C0 w_paused).
  { apply store_ok_of_check. vm_compute. reflexivity. }
  assert (Hr : exists r,
             @perform B0 C0 (OpResume paused_id "reject") w_paused
             = (Engine.Returned r, w_rejected)
             /\ Engine.r_status r = Engine.Cancelled
             /\ @ids_fresh B0 C0 (Engine.r_id r)
                  [OpResume paused_id "approve"; OpExecute "ab" params "pause";
                   OpResume paused_id "reject"; OpExecute "skip" params "auto_approve"]
                  w_rejected).
  { vm_compute. eexists. repeat split; discriminate. }
  destruct Hr as (r & Heq & Hst & Hfresh).
  assert (Hterm : Engine.is_terminal (Engine.r_status r) = true).
  { rewrite Hst. reflexivity. }
  pose proof (@C9_terminal_runs_are_final B0 C0 w_paused (OpResume paused_id "reject")
                r w_rejected Hok Heq Hterm) as (Hc & _ & Hres & Hkeep).
  exists r.
  split; [exact Heq|]. split; [exact Hst|]. split; [exact Hc|].
  split; [exact (Hres "approve") | exact (Hkeep _ Hfresh)].
Defined.

Lemma C10_witness :
  exists r w' tr,
    run "ba" params w0 = (Engine.Returned r, w')
    /\ Engine.cs_gate step_B = Some "approve"
    /\ Engine.trace w' = Engine.TStep 0 :: tr
    /\ Engine.r_status r = Engine.Complete
    /\ List.length (Engine.r_step_results r) = 2
    /\ (forall s, In (Engine.TSave s) tr ->
                  Engine.r_status s = Engine.WaitingApproval ->
                  exists j, Engine.r_waiting_step s = Some j /\ 0 < j).
Proof.
  destruct (@C10_first_step_is_never_gated B0 C0 w0 "ba" chain_BA params step_B [step_A]
              eq_refl eq_refl) as (r & w' & tr & Heq & Htr & _ & Hwait).
  exists r, w', tr.
  split; [exact Heq|]. split; [reflexivity|]. split; [exact Htr|].
  unfold run in *. vm_compute in Heq. injection Heq as <- _.
  split; [reflexivity|]. split; [reflexivity|].
  intros s Hs. apply Hwait. right. exact Hs.
Defined.

End ChainFacts.

(** * Properties of the context template resolver *)
Module TemplateFacts.
Import Engine.

(** ** Strings and placeholders *)

Lemma str_app_nil_r (s : string) : s ++ "" = s.
Proof. induction s; cbn; congruence. Qed.

Lemma str_app_assoc (a b c : string) : (a ++ b) ++ c = a ++ (b ++ c).
Proof. induction a; cbn; congruence. Qed.

Lemma str_length_app (a b : string) :
  String.length (a ++ b) = String.length a + String.length b.
Proof. induction a; cbn; congruence. Qed.

Fixpoint all_chars (p : ascii -> bool) (s : string) : bool :=
  match s with
  | EmptyString => true
  | String c r => p c && all_chars p r
  end.

Lemma all_chars_app (p : ascii -> bool) (a b : string) :
  all_chars p (a ++ b) = all_chars p a && all_chars p b.
Proof. induction a; cbn; [reflexivity|]. now rewrite IHa, andb_assoc. Qed.

(** A character that can stand in a path: no closing brace, no line feed. *)
Definition plain_char (c : ascii) : bool :=
  negb (Ascii.eqb c "}") && negb (Ascii.eqb c Str.newline).

(** A character that can stand in a part of a path: no dot either. *)
Definition part_char (c : ascii) : bool :=
  plain_char c && negb (Ascii.eqb c ".").

(** A path a placeholder can carry: not empty, plain characters only. *)
Definition path_ok (path : string) : bool :=
  negb (String.eqb path "") && all_chars plain_char path.

Lemma lazy_group_plain (r : string) :
  all_chars plain_char r = true -> Re.lazy_group (r ++ "}}") = Some r.
Proof.
  induction r as [|c r IH]; cbn; [reflexivity|].
  unfold plain_char. intros H.
  apply andb_prop in H. destruct H as (Hc & Hr).
  apply andb_prop in Hc. destruct Hc as (Hb & Hn).
  apply negb_true_iff in Hb, Hn.
  assert (Hs : Str.starts_with "}}" (String c (r ++ "}}")) = false).
  { unfold Str.starts_with. cbn [Str.strip_prefix].
    rewrite Ascii.eqb_sym, Hb. reflexivity. }
  now rewrite Hs, Hn, (IH Hr).
Qed.

Lemma placeholder_at_plain (path : string) :
  path_ok path = true -> Re.placeholder_at ("{{" ++ path ++ "}}") = Some path.
Proof.
  unfold path_ok. destruct path as [|c r]; cbn; [discriminate|].
  unfold plain_char at 1. intros H.
  apply andb_prop in H. destruct H as (Hc & Hr).
  apply andb_prop in Hc. destruct Hc as (_ & Hn).
  apply negb_true_iff in Hn. now rewrite Hn, (lazy_group_plain r Hr).
Qed.

Lemma sub_placeholders_skip (repl : string -> string -> string) (s : string) :
  forall n, String.length s <= n -> Re.sub_placeholders_from n repl s = "".
Proof.
  induction s as [|c r IH]; intros n Hn; cbn in *; [reflexivity|].
  destruct n as [|n]; [lia|]. apply IH. lia.
Qed.

(** A template that is one placeholder is what [replacer] returns for it. *)
Lemma sub_placeholders_single (repl : string -> string -> string) (path : string) :
  path_ok path = true ->
  Re.sub_placeholders repl ("{{" ++ path ++ "}}") = repl ("{{" ++ path ++ "}}") path.
Proof.
  intros Hok. unfold Re.sub_placeholders.
  pose proof (placeholder_at_plain path Hok) as Hat.
  change ("{{" ++ path ++ "}}") with (String "{" ("{" ++ path ++ "}}")) at 1.
  cbn [Re.sub_placeholders_from].
  change (String "{" ("{" ++ path ++ "}}")) with ("{{" ++ path ++ "}}").
  rewrite Hat, sub_placeholders_skip, str_app_nil_r; [reflexivity|].
  cbn. rewrite str_length_app. cbn. lia.
Qed.

(** ** The walk *)

Lemma walk_app (pre rest : list string) :
  forall obj,
    walk obj (pre ++ rest)
    = match walk obj pre with
      | Some v => walk v rest
      | None => None
      end.
Proof.
  induction pre as [|p pre IH]; intros obj; cbn [walk app]; [reflexivity|].
  destruct obj; try reflexivity.
  - destruct (Json.loads s) as [[]|]; try reflexivity; try apply IH.
    destruct (first_with_key p (Re.flat_objects s)); [apply IH | reflexivity].
  - apply IH.
Qed.

(** Some single-level [{...}] substring is a JSON object with the key. *)
Definition has_flat_object_with_key (part s : string) : bool :=
  existsb (fun m => match Json.loads m with
                    | Some (VDict d) => PyDict.mem part d
                    | _ => false
                    end)
    (Re.flat_objects s).

(** No parseable JSON object with the key can be found in [s]: the whole
    string is none, and no single-level [{...}] substring is one. *)
Definition no_object_with_key (part s : string) : Prop :=
  (forall d, Json.loads s = Some (VDict d) -> PyDict.mem part d = false)
  /\ has_flat_object_with_key part s = false.

Lemma first_with_key_none (part : string) (candidates : list string) :
  existsb (fun m => match Json.loads m with
                    | Some (VDict d) => PyDict.mem part d
                    | _ => false
                    end) candidates = false ->
  first_with_key part candidates = None.
Proof.
  induction candidates as [|m rest IH]; cbn; [reflexivity|].
  intros H. apply orb_false_elim in H. destruct H as (Hm & Hrest).
  destruct (Json.loads m) as [[]|]; auto.
  unfold PyDict.mem in Hm. destruct (PyDict.get part d); [discriminate | auto].
Qed.

Lemma walk_empty_string (part : string) (rest : list string) :
  walk (VStr "") (part :: rest) = None.
Proof. reflexivity. Qed.

Lemma dict_get_map {V W} (f : V -> W) (k : string) (d : dict V) :
  PyDict.get k (map (fun kv => (fst kv, f (snd kv))) d)
  = option_map f (PyDict.get k d).
Proof.
  induction d as [|[k' v] d IH]; cbn; [reflexivity|].
  destruct (String.eqb k k'); [reflexivity | exact IH].
Qed.

Section Resolver.
Context {B : PyBuiltins}.

(** When the walk stops, the placeholder stays. *)
Lemma replacer_unresolved (context : Value) (path : string) :
  walk context (Str.split_on "." path) = None ->
  path_ok path = true ->
  replacer context ("{{" ++ path ++ "}}") path = "{{" ++ path ++ "}}"
  /\ _resolve_template (VStr ("{{" ++ path ++ "}}")) context = "{{" ++ path ++ "}}".
Proof.
  intros Hwalk Hok.
  assert (Hr : replacer context ("{{" ++ path ++ "}}") path = "{{" ++ path ++ "}}").
  { unfold replacer. now rewrite Hwalk. }
  split; [exact Hr|].
  unfold _resolve_template. cbn [py_str].
  now rewrite sub_placeholders_single.
Qed.

Lemma walk_stops (part : string) (post : list string) (s : string) :
  no_object_with_key part s ->
  (forall d, Json.loads s <> Some (VDict d)) \/ post <> [] ->
  walk (VStr s) (part :: post) = None.
Proof.
  intros (Hwhole & Hflat) Hcase. cbn [walk].
  destruct (Json.loads s) as [v|] eqn:Hloads.
  - destruct v; try reflexivity.
    destruct Hcase as [Hnot|Hpost]; [now destruct (Hnot d)|].
    specialize (Hwhole d eq_refl). unfold PyDict.mem in Hwhole.
    unfold PyDict.get_default.
    destruct (PyDict.get part d); [discriminate|].
    destruct post as [|p post]; [contradiction|]. apply walk_empty_string.
  - now rewrite (first_with_key_none part (Re.flat_objects s) Hflat).
Qed.

(** C5, amended.  A path whose walk reaches a string in which no JSON object
    with the needed key can be found keeps its placeholder as it is written,
    when the string as a whole is not a JSON object or the key is not the
    last part of the path.  When the string as a whole is a JSON object that
    lacks the key and the key is the last part of the path, the placeholder
    resolves to the empty string.  The model is total, nothing is raised.
    In particular [{{steps.step-9.output.x}}] stays when there is no entry
    for [step-9]. *)
Theorem C5_unreachable_path_keeps_the_placeholder (context : Value) :
  (forall (path : string) (pre : list string) (part : string) (post : list string)
          (s : string),
      path_ok path = true ->
      Str.split_on "." path = (pre ++ part :: post)%list ->
      walk context pre = Some (VStr s) ->
      no_object_with_key part s ->
      (forall d, Json.loads s <> Some (VDict d)) \/ post <> [] ->
      replacer context ("{{" ++ path ++ "}}") path = "{{" ++ path ++ "}}"
      /\ _resolve_template (VStr ("{{" ++ path ++ "}}")) context = "{{" ++ path ++ "}}")
  /\ (forall (path : string) (pre : list string) (part s : string)
             (parsed : dict Value),
        path_ok path = true ->
        Str.split_on "." path = (pre ++ [part])%list ->
        walk context pre = Some (VStr s) ->
        Json.loads s = Some (VDict parsed) ->
        PyDict.get part parsed = None ->
        replacer context ("{{" ++ path ++ "}}") path = ""
        /\ _resolve_template (VStr ("{{" ++ path ++ "}}")) context = "")
  /\ (forall ctx,
        context = context_value ctx ->
        PyDict.get "step-9" (ctx_steps ctx) = None ->
        _resolve_template (VStr "{{steps.step-9.output.x}}") context
        = "{{steps.step-9.output.x}}").
Proof.
  assert (Hgen : forall path pre part post s,
             path_ok path = true ->
             Str.split_on "." path = (pre ++ part :: post)%list ->
             walk context pre = Some (VStr s) ->
             no_object_with_key part s ->
             (forall d, Json.loads s <> Some (VDict d)) \/ post <> [] ->
             replacer context ("{{" ++ path ++ "}}") path = "{{" ++ path ++ "}}"
             /\ _resolve_template (VStr ("{{" ++ path ++ "}}")) context
                = "{{" ++ path ++ "}}").
  { intros path pre part post s Hok Hsplit Hpre Hno Hcase.
    apply replacer_unresolved; [|exact Hok].
    now rewrite Hsplit, walk_app, Hpre, walk_stops. }
  split; [exact Hgen|]. split.
  - intros path pre part s parsed Hok Hsplit Hpre Hloads Hnone.
    assert (Hr : replacer context ("{{" ++ path ++ "}}") path = "").
    { unfold replacer. rewrite Hsplit, walk_app, Hpre. cbn [walk].
      rewrite Hloads. unfold PyDict.get_default. unfold dict in *. rewrite Hnone.
      reflexivity. }
    split; [exact Hr|].
    unfold _resolve_template. cbn [py_str].
    now rewrite sub_placeholders_single.
  - intros ctx -> Hnone.
    apply (Hgen "steps.step-9.output.x" ["steps"; "step-9"] "output" ["x"] "").
    + reflexivity.
    + reflexivity.
    + unfold context_value. cbn [walk PyDict.get_default PyDict.get String.eqb Ascii.eqb
                                     Bool.eqb fst snd].
      unfold PyDict.get_default. rewrite (dict_get_map VDict). unfold dict in *.
      now rewrite Hnone.
    + split; [intros d Hd; discriminate | reflexivity].
    + right. discriminate.
Qed.

End Resolver.

(** The text [{"a": 1}]. *)
Definition object_a : string := "{" ++ DQ ++ "a" ++ DQ ++ ": 1}".

Lemma C5_counterexample :
  let context := context_value (mkContext [("cfg", VStr object_a)] []) in
  walk context ["chain"; "cfg"] = Some (VStr object_a)
  /\ no_object_with_key "x" object_a
  /\ @_resolve_template Scripted.builtins (VStr "{{chain.cfg.x}}") context = ""
  /\ "" <> "{{chain.cfg.x}}".
Proof.
  cbv zeta. split; [reflexivity|]. split; [|split; [reflexivity | discriminate]].
  split; [|reflexivity].
  intros d Hd. vm_compute in Hd. injection Hd as <-. reflexivity.
Qed.

Lemma C5_witness :
  let context := context_value (mkContext [("device", VStr "bigip01")] []) in
  @_resolve_template Scripted.builtins (VStr "{{steps.step-9.output.x}}") context
  = "{{steps.step-9.output.x}}"
  /\ @_resolve_template Scripted.builtins (VStr "{{chain.device.name}}") context
     = "{{chain.device.name}}"
  /\ @_resolve_template Scripted.builtins (VStr "{{chain.cfg.x}}")
       (context_value (mkContext [("cfg", VStr object_a)] [])) = "".
Proof.
  cbv zeta.
  destruct (@C5_unreachable_path_keeps_the_placeholder Scripted.builtins
              (context_value (mkContext [("device", VStr "bigip01")] [])))
    as (Hgen & _ & Hstep9).
  destruct (@C5_unreachable_path_keeps_the_placeholder Scripted.builtins
              (context_value (mkContext [("cfg", VStr object_a)] [])))
    as (_ & Hempty & _).
  split; [|split].
  - exact (Hstep9 _ eq_refl eq_refl).
  - refine (proj2 (Hgen "chain.device.name" ["chain"; "device"] "name" [] "bigip01"
                     eq_refl eq_refl eq_refl _ _)).
    + split; [intros d Hd; discriminate | reflexivity].
    + left. intros d Hd. discriminate.
  - exact (proj2 (Hempty "chain.cfg.x" ["chain"; "cfg"] "x" object_a [("a", VInt 1)]
                    eq_refl eq_refl eq_refl eq_refl eq_refl)).
Defined.

(** ** Forwarding the output of a step *)

Lemma part_char_plain (s : string) :
  all_chars part_char s = true -> all_chars plain_char s = true.
Proof.
  induction s as [|c r IH]; cbn; [reflexivity|].
  unfold part_char at 1. intros H.
  apply andb_prop in H. destruct H as (Hc & Hr).
  apply andb_prop in Hc. destruct Hc as (Hp & _).
  now rewrite Hp, IH.
Qed.

Lemma split_on_no_dot (a : string) :
  all_chars part_char a = true -> Str.split_on "." a = [a].
Proof.
  induction a as [|c r IH]; cbn; [reflexivity|].
  unfold part_char at 1. intros H.
  apply andb_prop in H. destruct H as (Hc & Hr).
  apply andb_prop in Hc. destruct Hc as (_ & Hd). apply negb_true_iff in Hd.
  now rewrite Hd, (IH Hr).
Qed.

Lemma split_on_dot (a b : string) :
  all_chars part_char a = true ->
  Str.split_on "." (a ++ String "." b) = a :: Str.split_on "." b.
Proof.
  induction a as [|c r IH]; cbn; [reflexivity|].
  unfold part_char at 1. intros H.
  apply andb_prop in H. destruct H as (Hc & Hr).
  apply andb_prop in Hc. destruct Hc as (_ & Hd). apply negb_true_iff in Hd.
  now rewrite Hd, (IH Hr).
Qed.

Section Forwarding.
Context {B : PyBuiltins} {C : Collaborators}.

(** The value a dotted path into the stored output of a step resolves to. *)
Lemma resolve_step_output (ctx : Context) (step_id key : string) (entry : dict Value)
      (obj : dict Value) (v : Value) :
  all_chars part_char step_id = true ->
  all_chars part_char key = true ->
  PyDict.get step_id (ctx_steps ctx) = Some entry ->
  PyDict.get "output" entry = Some (VDict obj) ->
  PyDict.get key obj = Some v ->
  _resolve_template (VStr ("{{steps." ++ step_id ++ ".output." ++ key ++ "}}"))
    (context_value ctx)
  = if truthy v then py_str v else "".
Proof.
  intros Hid Hkey Hentry Hout Hv.
  set (path := "steps." ++ step_id ++ ".output." ++ key).
  assert (Hok : path_ok path = true).
  { unfold path_ok, path. cbn. rewrite all_chars_app. cbn.
    now rewrite (part_char_plain _ Hid), (part_char_plain _ Hkey). }
  assert (Hsplit : Str.split_on "." path = ["steps"; step_id; "output"; key]).
  { unfold path.
    change ("steps." ++ step_id ++ ".output." ++ key)
      with ("steps" ++ String "." (step_id ++ String "." ("output" ++ String "." key))).
    rewrite (split_on_dot "steps") by reflexivity.
    rewrite (split_on_dot step_id) by exact Hid.
    rewrite (split_on_dot "output") by reflexivity.
    now rewrite (split_on_no_dot key Hkey). }
  assert (Ht : "{{steps." ++ step_id ++ ".output." ++ key ++ "}}" = "{{" ++ path ++ "}}").
  { unfold path. cbn. now rewrite !str_app_assoc. }
  unfold _resolve_template. cbn [py_str]. rewrite Ht.
  rewrite (sub_placeholders_single _ path Hok).
  unfold replacer. rewrite Hsplit.
  unfold context_value.
  cbn [walk PyDict.get_default PyDict.get String.eqb Ascii.eqb Bool.eqb fst snd].
  unfold PyDict.get_default. rewrite (dict_get_map VDict).
  unfold dict in *. rewrite Hentry. cbn [option_map walk].
  unfold PyDict.get_default. rewrite Hout. cbn [walk].
  unfold PyDict.get_default. now rewrite Hv.
Qed.

(** What [_execute_step] makes of a returned execution. *)
Lemma execute_step_entry (step : ChainStep) (step_id hostname : string)
      (params : dict Value) (x x' : Executor.XWorld) (result : ExecutionResult) :
  Executor.execute_skill
    (mkExecutionRequest (cs_skill_name step) hostname params) x = (inl result, x') ->
  exists step_result context_entry,
    _execute_step step step_id (VStr hostname) params x
    = (inl (step_result, context_entry, er_status result), x')
    /\ csr_status step_result = status_value (er_status result)
    /\ PyDict.get "output" context_entry
       = Some (match Json.loads (combined_output_of result) with
               | Some (VDict parsed) => VDict parsed
               | _ => VStr (combined_output_of result)
               end).
Proof.
  intros Hexec. unfold _execute_step, Executor.bind. rewrite Hexec.
  unfold Executor.ret. do 2 eexists. split; [reflexivity|]. split; reflexivity.
Qed.

Lemma dict_get_fold_set_none {V} (k : string) (e : dict V) :
  forall acc : dict V,
    PyDict.get k e = None -> PyDict.get k acc = None ->
    PyDict.get k (fold_left (fun acc kv => PyDict.set (fst kv) (snd kv) acc) e acc) = None.
Proof.
  induction e as [|[k0 v0] e IH]; intros acc He Hacc; cbn in *; [exact Hacc|].
  destruct (String.eqb k k0) eqn:E; [discriminate|].
  apply IH; [exact He|].
  rewrite ChainFacts.dict_get_set_other; [exact Hacc|].
  intros ->. rewrite String.eqb_refl in E. discriminate.
Qed.

(** What [forward_output] does with [vmid]. *)
Lemma forward_output_new_vmid (output : string) (parsed running_params : dict Value)
      (vmid : Value) :
  Json.loads output = Some (VDict parsed) ->
  PyDict.get "vmid" parsed = Some vmid ->
  PyDict.get "new_vmid" running_params = None ->
  PyDict.get "new_vmid" parsed = None ->
  PyDict.get "new_vmid" (Executor.forward_output output running_params) = Some vmid.
Proof.
  intros Hloads Hvmid Hrp Hparsed. unfold Executor.forward_output.
  rewrite Hloads, Hvmid. unfold PyDict.mem, PyDict.update.
  rewrite (dict_get_fold_set_none "new_vmid" parsed running_params Hparsed Hrp).
  apply ChainFacts.dict_get_set_same.
Qed.

(** A step that succeeds with some output hands the forwarded parameters to
    the steps after it. *)
Lemma run_steps_forwards (creds : dict Value) (dev : Executor.Device)
      (step_def : StepDef) (rest : list StepDef) (st : Executor.SkillLoop)
      (w w1 : Executor.XWorld) (exec_result : ExecResult) (elapsed : Z) :
  Executor.timed_dispatch
    (Executor.plan_step dev (Executor.sl_running_params st) step_def) creds dev
    (Executor.sl_running_params st) w = (inl (exec_result, elapsed), w1) ->
  x_success exec_result = true ->
  x_output exec_result <> "" ->
  exists all_output steps,
    Executor.run_steps creds dev (step_def :: rest) st w
    = Executor.run_steps creds dev rest
        (Executor.mkSkillLoop
           (Executor.forward_output (x_output exec_result) (Executor.sl_running_params st))
           all_output steps None) w1.
Proof.
  intros Hd Hs Ho. cbn [Executor.run_steps].
  unfold Executor.bind at 1, Executor.try. rewrite Hd, Hs.
  destruct (String.eqb (x_output exec_result) "") eqn:E.
  - apply String.eqb_eq in E. contradiction.
  - do 2 eexists. reflexivity.
Qed.

(** C6, amended.  (1) When the combined output of the skill a chain step
    executes is one JSON object, the object is what the context keeps as the
    output of the step, and a template [{{steps.<id>.output.<key>}}]
    resolves to the string of the value of the key when that value is
    truthy, and to the empty string when it is falsy.  (2) Within a skill, a
    step that succeeds with a JSON object holding [vmid] leaves [new_vmid]
    set to that value for the steps after it, when neither the running
    parameters nor the object itself set [new_vmid]. *)
Theorem C6_step_output_is_forwarded :
  (forall (step : ChainStep) (step_id hostname key : string) (params : dict Value)
          (x x' : Executor.XWorld) (result : ExecutionResult) (obj : dict Value)
          (v : Value),
      Executor.execute_skill (mkExecutionRequest (cs_skill_name step) hostname params) x
      = (inl result, x') ->
      Json.loads (combined_output_of result) = Some (VDict obj) ->
      PyDict.get key obj = Some v ->
      all_chars part_char step_id = true ->
      all_chars part_char key = true ->
      exists step_result context_entry,
        _execute_step step step_id (VStr hostname) params x
        = (inl (step_result, context_entry, er_status result), x')
        /\ PyDict.get "output" context_entry = Some (VDict obj)
        /\ forall run,
             _resolve_template
               (VStr ("{{steps." ++ step_id ++ ".output." ++ key ++ "}}"))
               (context_value (r_context (set_context_step step_id context_entry run)))
             = if truthy v then py_str v else "")
  /\ (forall (creds : dict Value) (dev : Executor.Device) (step_def : StepDef)
             (rest : list StepDef) (st : Executor.SkillLoop) (w w1 : Executor.XWorld)
             (exec_result : ExecResult) (elapsed : Z) (parsed : dict Value)
             (vmid : Value),
         Executor.timed_dispatch
           (Executor.plan_step dev (Executor.sl_running_params st) step_def) creds dev
           (Executor.sl_running_params st) w = (inl (exec_result, elapsed), w1) ->
         x_success exec_result = true ->
         Json.loads (x_output exec_result) = Some (VDict parsed) ->
         PyDict.get "vmid" parsed = Some vmid ->
         PyDict.get "new_vmid" (Executor.sl_running_params st) = None ->
         PyDict.get "new_vmid" parsed = None ->
         exists running_params all_output steps,
           Executor.run_steps creds dev (step_def :: rest) st w
           = Executor.run_steps creds dev rest
               (Executor.mkSkillLoop running_params all_output steps None) w1
           /\ PyDict.get "new_vmid" running_params = Some vmid).
Proof.
  split.
  - intros step step_id hostname key params x x' result obj v Hexec Hloads Hv Hid Hkey.
    destruct (execute_step_entry step step_id hostname params x x' result Hexec)
      as (sr & entry & Heq & _ & Hout).
    rewrite Hloads in Hout.
    exists sr, entry. split; [exact Heq|]. split; [exact Hout|].
    intros run. apply (resolve_step_output _ step_id key entry obj v Hid Hkey).
    + cbn. apply ChainFacts.dict_get_set_same.
    + exact Hout.
    + exact Hv.
  - intros creds dev step_def rest st w w1 exec_result elapsed parsed vmid
           Hd Hs Hloads Hvmid Hrp Hparsed.
    assert (Ho : x_output exec_result <> "").
    { intros E. rewrite E in Hloads. discriminate. }
    destruct (run_steps_forwards creds dev step_def rest st w w1 exec_result elapsed
                Hd Hs Ho) as (all_output & steps & Heq).
    eexists. exists all_output, steps. split; [exact Heq|].
    now apply (forward_output_new_vmid _ parsed).
Qed.

End Forwarding.

(** *** The round trip on a concrete skill *)

Definition quoted (s : string) : string := DQ ++ s ++ DQ.

(** The text [{"mgmt_ip": "10.0.0.5", "vmid": 110}]. *)
Definition allocated : string :=
  "{" ++ quoted "mgmt_ip" ++ ": " ++ quoted "10.0.0.5" ++ ", "
      ++ quoted "vmid" ++ ": 110}".

(** The text [{"mgmt_ip": "10.0.0.5", "count": 0}]. *)
Definition counted : string :=
  "{" ++ quoted "mgmt_ip" ++ ": " ++ quoted "10.0.0.5" ++ ", "
      ++ quoted "count" ++ ": 0}".

Definition catalog : dict Skill :=
  [("alloc", mkSkill [Scripted.step "allocate" "alloc-ip" false;
                      Scripted.step "tag" "tag {{new_vmid}}" false] []);
   ("count", mkSkill [Scripted.step "count" "count-ip" false] [])].

Definition C1 : Collaborators :=
  Scripted.collaborators catalog ChainFacts.vault
    (Scripted.answer [("alloc-ip", allocated); ("tag 110", ""); ("count-ip", counted)])
    (fun _ => None).

Definition chain_count : Automation :=
  mkAutomation "count" [Scripted.chain_step "count" "auto" "stop" []].

Definition alloc_step : ChainStep := Scripted.chain_step "alloc" "auto" "stop" [].

(** The run of [chain_count] on the device. *)
Definition counted_run : Outcome :=
  fst (@execute_chain Scripted.builtins C1 "count" ChainFacts.params "pause"
         (Scripted.world C1 0 [("count", chain_count)] [])).

Lemma C6_counterexample :
  exists r entry obj,
    counted_run = Returned r
    /\ PyDict.get "step-1" (ctx_steps (r_context r)) = Some entry
    /\ PyDict.get "output" entry = Some (VDict obj)
    /\ PyDict.get "count" obj = Some (VInt 0)
    /\ @py_str Scripted.builtins (VInt 0) = "0"
    /\ @_resolve_template Scripted.builtins (VStr "{{steps.step-1.output.count}}")
         (context_value (r_context r)) = ""
    /\ @_resolve_template Scripted.builtins (VStr "{{steps.step-1.output.mgmt_ip}}")
         (context_value (r_context r)) = "10.0.0.5".
Proof.
  do 3 eexists.
  split; [vm_compute; reflexivity|].
  split; [vm_compute; reflexivity|].
  split; [vm_compute; reflexivity|].
  split; [vm_compute; reflexivity|].
  split; [vm_compute; reflexivity|].
  split; vm_compute; reflexivity.
Qed.

Lemma C6_witness :
  exists result x' context_entry,
    @Executor.execute_skill Scripted.builtins C1
      (mkExecutionRequest "alloc" "bigip01" []) (Scripted.start C1 0) = (inl result, x')
    /\ map sr_command (er_steps result) = ["alloc-ip"; "tag 110"]
    /\ PyDict.get "output" context_entry
       = Some (VDict [("mgmt_ip", VStr "10.0.0.5"); ("vmid", VInt 110)])
    /\ (forall run,
          @_resolve_template Scripted.builtins (VStr "{{steps.step-1.output.mgmt_ip}}")
            (context_value (r_context (set_context_step "step-1" context_entry run)))
          = "10.0.0.5")
    /\ (exists running_params all_output steps w1,
          @Executor.run_steps Scripted.builtins C1 ChainFacts.vault_entry
            (@Executor.device_of Scripted.builtins (mkExecutionRequest "alloc" "bigip01" [])
               ChainFacts.vault_entry)
            [Scripted.step "allocate" "alloc-ip" false]
            (Executor.mkSkillLoop [] [] [] None) (Scripted.start C1 4)
          = (inl (Executor.mkSkillLoop running_params all_output steps None), w1)
          /\ PyDict.get "new_vmid" running_params = Some (VInt 110)).
Proof.
  destruct (@C6_step_output_is_forwarded Scripted.builtins C1) as (Hchain & Hskill).
  assert (Hexec : exists result x',
             @Executor.execute_skill Scripted.builtins C1
               (mkExecutionRequest "alloc" "bigip01" []) (Scripted.start C1 0)
             = (inl result, x')
             /\ map sr_command (er_steps result) = ["alloc-ip"; "tag 110"]
             /\ Json.loads (combined_output_of result)
                = Some (VDict [("mgmt_ip", VStr "10.0.0.5"); ("vmid", VInt 110)])).
  { do 2 eexists.
    split; [vm_compute; reflexivity|].
    split; vm_compute; reflexivity. }
  destruct Hexec as (result & x' & Hexec & Hcmd & Hloads).
  destruct (Hchain alloc_step "step-1" "bigip01" "mgmt_ip" [] _ _ result _
              (VStr "10.0.0.5") Hexec Hloads eq_refl eq_refl eq_refl)
    as (sr & entry & _ & Hout & Hres).
  exists result, x', entry.
  split; [exact Hexec|]. split; [exact Hcmd|]. split; [exact Hout|].
  split; [exact Hres|].
  destruct (Hskill ChainFacts.vault_entry
              (@Executor.device_of Scripted.builtins (mkExecutionRequest "alloc" "bigip01" [])
                 ChainFacts.vault_entry)
              (Scripted.step "allocate" "alloc-ip" false) []
              (Executor.mkSkillLoop [] [] [] None)
              (Scripted.start C1 4) (Scripted.start C1 7)
              (mkExecResult allocated None true) 2%Z
              [("mgmt_ip", VStr "10.0.0.5"); ("vmid", VInt 110)] (VInt 110)
              eq_refl eq_refl eq_refl eq_refl eq_refl eq_refl)
    as (rp & ao & steps & Heq & Hnew).
  exists rp, ao, steps, (Scripted.start C1 7).
  split; [exact Heq | exact Hnew].
Defined.

End TemplateFacts.

(** * Properties of the skill executor *)
Module ExecutorFacts.
Import Executor.




Section Facts.
Context {B : PyBuiltins} {C : Collaborators}.












End Facts.

(** *** A step that fails and is allowed to continue *)

(** A skill whose first step may fail; the device knows only [show]. *)
Definition probing : dict Skill :=
  [("probe", mkSkill [Scripted.step "check" "probe" true;
                      Scripted.step "list" "show" false] [])].

Definition Cprobe : Collaborators :=
  Scripted.collaborators probing ChainFacts.vault
    (Scripted.answer [("show", "ok")]) (fun _ => None).

Definition probe : ExecutionRequest := mkExecutionRequest "probe" "bigip01" [].


(** C4 at a failing input.  The first step of [probe] fails and is allowed
    to continue.  Both variants end complete with the same step statuses,
    and the streaming variant persists the result its last event carries;
    but [execute_skill] records the output of the failed step with the note
    that it was allowed to continue, and the streaming variant records it
    without: the two results differ in a step output. *)
Theorem C4_streaming_drops_the_continue_note :
  exists r events wa wb r',
    @execute_skill Scripted.builtins Cprobe probe (Scripted.start Cprobe 0) = (inl r, wa)
    /\ @execute_skill_streaming Scripted.builtins Cprobe probe (Scripted.start Cprobe 0)
       = (inl events, wb)
    /\ last events EvAnalyzing = EvExecutionComplete (er_execution_id r) "complete" r'
    /\ history wb = [(er_execution_id r, r')]
    /\ er_status r = COMPLETE /\ er_status r' = COMPLETE
    /\ map sr_status (er_steps r) = [FAILED; COMPLETE]
    /\ map sr_status (er_steps r') = [FAILED; COMPLETE]
    /\ map sr_output (er_steps r)
       = [LF ++ "[Step failed but allowed to continue: command not found]"; "ok"]
    /\ map sr_output (er_steps r') = [""; "ok"]
    /\ er_steps r <> er_steps r'.
Proof.
  do 5 eexists.
  split; [vm_compute; reflexivity|].
  split; [vm_compute; reflexivity|].
  split; [cbv; reflexivity|].
  split; [vm_compute; reflexivity|].
  split; [vm_compute; reflexivity|].
  split; [vm_compute; reflexivity|].
  split; [vm_compute; reflexivity|].
  split; [vm_compute; reflexivity|].
  split; [vm_compute; reflexivity|].
  split; [vm_compute; reflexivity|].
  vm_compute. discriminate.
Qed.

End ExecutorFacts.

(** * Properties of the chain definitions *)
Module AutomationFacts.
Import Automations.


Section Facts.
Context {B : PyBuiltins}.


Lemma mem_set_same (k : string) (v : Value) (d : dict Value) :
  PyDict.mem k (PyDict.set k v d) = true.
Proof. unfold PyDict.mem. now rewrite ChainFacts.dict_get_set_same. Qed.







End Facts.



End AutomationFacts.

(** * More properties of the orchestrator *)
Module EngineFacts.
Import Engine ChainFacts.

Section Facts.
Context {B : PyBuiltins} {C : Collaborators}.










End Facts.

(** *** On the chains of [ChainFacts] *)






End EngineFacts.
